(** * Progress trackers of the trainer (pytorch_lightning/trainer/progress.py)

    A shallow embedding of the progress-tracking dataclasses and of their
    state-dict protocol, followed by the properties established about them.

    Conventions of the embedding:
    - a dataclass is a record; a subclass embeds its base class as the field
      [super], except [FitLoopProgress], which re-declares [epoch] with a
      narrower type and is therefore a record of its own;
    - a method that mutates [self] is a computation in the monad [Py.M],
      which threads the object and may raise: the object is returned also
      when an exception escapes, because Python keeps the mutations made
      before the [raise];
    - leaf values are dynamically typed, as in Python: a counter annotated
      [Optional[int]] can hold whatever a state dict delivers;
    - a state dict is a finite map from strings to values;
    - the values are [None], booleans, integers and dicts of values: strings
      and sequences, on which a dict update behaves in yet other ways, are
      not among them, and what is proved of "every state" is proved of the
      states built from these four kinds. *)

From Stdlib Require Import ZArith.
From stdpp Require Import gmap strings.

#[local] Set Warnings "-register-all".

(** ** Values *)

Inductive value : Type :=
| VNone
| VBool (b : bool)
| VInt (z : Z)
| VDict (d : gmap string value).

(** [v is None] *)
Definition is_None (v : value) : bool :=
  match v with VNone => true | _ => false end.

(** [v is not None] *)
Definition is_not_None (v : value) : bool := negb (is_None v).

Inductive exn : Type :=
| AttributeError (key : string)
| KeyError (key : string)
| TypeError.

(** [state[key]]: only a dict can be subscripted; a missing key is a
    [KeyError]. *)
Definition getitem (state : value) (key : string) : exn + value :=
  match state with
  | VDict d =>
      match d !! key with
      | Some v => inr v
      | None => inl (KeyError key)
      end
  | _ => inl TypeError
  end.

(** [v + 1]: defined on [int] and on its subclass [bool]. *)
Definition add1 (v : value) : exn + value :=
  match v with
  | VInt z => inr (VInt (z + 1))
  | VBool b => inr (VInt (Z.b2z b + 1))
  | _ => inl TypeError
  end.

(** ** Methods as computations over [self] *)

Module Py.

Definition M (S A : Type) : Type := S → S * (exn + A).

Definition raise {S A} (e : exn) : M S A := λ self, (self, inl e).

(** Read the receiver. *)
Definition this {S} : M S S := λ self, (self, inr self).

(** Plain attribute store (no hook involved). *)
Definition modify {S} (f : S → S) : M S unit := λ self, (f self, inr tt).

(** The outcome of an expression that does not touch [self]. *)
Definition lift {S A} (r : exn + A) : M S A := λ self, (self, r).

(** [if b: body] *)
Definition when {S} (b : bool) (body : M S unit) : M S unit :=
  if b then body else λ self, (self, inr tt).

(** A field of [S] holding an object of class [T]. *)
Record attr (S T : Type) : Type :=
  Attr { view : S → T; update : T → S → S }.
Arguments Attr {S T} _ _.
Arguments view {S T} _ _.
Arguments update {S T} _ _ _.

(** [self.a.method(...)]: run a method of the object stored in [a]. *)
Definition on {S T A} (a : attr S T) (m : M T A) : M S A :=
  λ self, let (o, r) := m (view a self) in (update a o self, r).

Definition then_ {S T U} (a : attr S T) (b : attr T U) : attr S U :=
  Attr (λ s, view b (view a s)) (λ u s, update a (update b u (view a s)) s).

#[global] Instance M_ret {S} : MRet (M S) := λ A a self, (self, inr a).

#[global] Instance M_bind {S} : MBind (M S) := λ A B k m self,
  match m self with
  | (self', inr a) => k a self'
  | (self', inl e) => (self', inl e)
  end.

(** The call returned normally and left the object as [self']. *)
Definition returns {S} (m : M S unit) (self self' : S) : Prop :=
  m self = (self', inr tt).

(** The call raised [e]; the object is [self'] at that point. *)
Definition raises {S} (m : M S unit) (self : S) (e : exn) (self' : S) : Prop :=
  m self = (self', inl e).

(** [n] calls in a row; a raise stops the sequence. *)
Fixpoint repeat_call {T} (n : nat) (m : M T unit) : M T unit :=
  match n with
  | O => mret tt
  | S n' => m ;; repeat_call n' m
  end.

End Py.

Import Py.

Infix "∘ₐ" := Py.then_ (at level 40, left associativity).

(** ** [_DataclassStateDictMixin] *)

(** What the mixin relies on in a class that inherits from it: the
    constructor without arguments, [dataclasses.asdict] on its instances and
    the [__setstate__] that the class ends up with. *)
Class StateDictMixin (T : Type) : Type := {
  cls : T;
  asdict : T → value;
  setstate : value → M T unit
}.

Definition __getstate__ `{StateDictMixin T} (self : T) : value :=
  asdict self.

Definition state_dict `{StateDictMixin T} (self : T) : value :=
  __getstate__ self.

Definition from_state_dict `{StateDictMixin T} (state_dict : value)
  : exn + T :=
  match setstate state_dict cls with
  | (obj, inr _) => inr obj
  | (_, inl e) => inl e
  end.

(** ** [Tracker] *)

Module Tracker.

Record t : Type := mk {
  ready : value;
  started : value;
  processed : value;
  completed : value
}.

Inductive field : Type := Ready | Started | Processed | Completed.

Definition fields : list field := [Ready; Started; Processed; Completed].

Definition name (f : field) : string :=
  match f with
  | Ready => "ready"
  | Started => "started"
  | Processed => "processed"
  | Completed => "completed"
  end.

Definition field_of (key : string) : option field :=
  if decide (key = "ready") then Some Ready
  else if decide (key = "started") then Some Started
  else if decide (key = "processed") then Some Processed
  else if decide (key = "completed") then Some Completed
  else None.

Definition get (f : field) (self : t) : value :=
  match f with
  | Ready => ready self
  | Started => started self
  | Processed => processed self
  | Completed => completed self
  end.

Definition set (f : field) (v : value) (self : t) : t :=
  match f with
  | Ready => mk v (started self) (processed self) (completed self)
  | Started => mk (ready self) v (processed self) (completed self)
  | Processed => mk (ready self) (started self) v (completed self)
  | Completed => mk (ready self) (started self) (processed self) v
  end.

(** The dataclass leaves every default on the class, so an instance whose
    [__dict__] is still empty reads 0 for each stage. *)
Definition class_attrs : t := mk (VInt 0) (VInt 0) (VInt 0) (VInt 0).

(** [getattr(self, key, default)]. Attributes other than the four stages
    are outside the record: for them the embedding answers [default]. *)
Definition getattr (self : t) (key : string) (default : value) : value :=
  match field_of key with
  | Some f => get f self
  | None => default
  end.

(** [object.__setattr__(self, key, value)] *)
Definition object_setattr (key : string) (v : value) (self : t) : t :=
  match field_of key with
  | Some f => set f v self
  | None => self
  end.

Definition __setattr__ (key : string) (v : value) : M t unit :=
  self ← this;
  if is_None (getattr self key (VInt 0))
  then raise (AttributeError key)
  else modify (object_setattr key v).

(** [self.<f> += 1] *)
Definition iadd1 (f : field) : M t unit :=
  self ← this;
  v ← lift (add1 (get f self));
  __setattr__ (name f) v.

(** Keyword arguments of the generated [__init__]; [None] stands for a
    keyword that is not passed. *)
Record kwargs : Type := Kwargs {
  kw_ready : option value;
  kw_started : option value;
  kw_processed : option value;
  kw_completed : option value
}.

Definition no_kwargs : kwargs := Kwargs None None None None.

(** The generated [__init__] assigns the four fields in order, each
    through [__setattr__]. *)
Definition __init__ (kw : kwargs) : M t unit :=
  __setattr__ "ready" (default (VInt 0) (kw_ready kw));;
  __setattr__ "started" (default (VInt 0) (kw_started kw));;
  __setattr__ "processed" (default (VInt 0) (kw_processed kw));;
  __setattr__ "completed" (default (VInt 0) (kw_completed kw)).

(** The constructor call with the keywords [kw]. *)
Definition new (kw : kwargs) : t := fst (__init__ kw class_attrs).

Definition reset : M t unit :=
  (self ← this;
   when (is_not_None (ready self)) (__setattr__ "ready" (VInt 0)));;
  (self ← this;
   when (is_not_None (started self)) (__setattr__ "started" (VInt 0)));;
  (self ← this;
   when (is_not_None (processed self)) (__setattr__ "processed" (VInt 0)));;
  (self ← this;
   when (is_not_None (completed self)) (__setattr__ "completed" (VInt 0))).

Definition reset_on_restart : M t unit :=
  self ← this;
  let value :=
    if is_None (processed self) then completed self else processed self in
  (self ← this;
   when (is_not_None (ready self)) (__setattr__ "ready" value));;
  (self ← this;
   when (is_not_None (started self)) (__setattr__ "started" value));;
  (self ← this;
   when (is_not_None (processed self)) (__setattr__ "processed" value));;
  (self ← this;
   when (is_not_None (completed self)) (__setattr__ "completed" value)).

(** [asdict(self)] *)
Definition to_dict (self : t) : value :=
  VDict {[ "ready" := ready self;
           "started" := started self;
           "processed" := processed self;
           "completed" := completed self ]}.

(** [self.__dict__.update(d)]: the entries of [d] overwrite the
    attributes of the same name; [__setattr__] is not involved. Keys that
    name no stage become attributes outside the record, which none of the
    methods embedded here reads. *)
Definition dict_update (d : gmap string value) (self : t) : t :=
  mk (default (ready self) (d !! "ready"))
     (default (started self) (d !! "started"))
     (default (processed self) (d !! "processed"))
     (default (completed self) (d !! "completed")).

(** The mixin's [__setstate__], which [Tracker] inherits unchanged. The
    values that are not dicts here are [None], a boolean and an integer, and
    on each of them [dict.update] raises a [TypeError]. *)
Definition __setstate__ (state : value) : M t unit :=
  match state with
  | VDict d => modify (dict_update d)
  | _ => raise TypeError
  end.

#[global] Instance mixin : StateDictMixin t := {
  cls := new no_kwargs;
  asdict := to_dict;
  setstate := __setstate__
}.

(** Which stages are unused. *)
Definition disabled (f : field) (self : t) : bool := is_None (get f self).

End Tracker.

(** ** [Progress] *)

Module Progress.

Record t : Type := mk {
  total : Tracker.t;
  current : Tracker.t
}.

Definition _total : attr t Tracker.t :=
  Attr total (λ o self, mk o (current self)).
Definition _current : attr t Tracker.t :=
  Attr current (λ o self, mk (total self) o).

Definition increment_ready : M t unit :=
  self ← this;
  if is_None (Tracker.ready (total self))
     || is_None (Tracker.ready (current self))
  then mret tt
  else
    on _total (Tracker.iadd1 Tracker.Ready);;
    on _current (Tracker.iadd1 Tracker.Ready).

Definition increment_started : M t unit :=
  self ← this;
  if is_None (Tracker.started (total self))
     || is_None (Tracker.started (current self))
  then mret tt
  else
    on _total (Tracker.iadd1 Tracker.Started);;
    on _current (Tracker.iadd1 Tracker.Started).

Definition increment_processed : M t unit :=
  self ← this;
  if is_None (Tracker.processed (total self))
     || is_None (Tracker.processed (current self))
  then mret tt
  else
    on _total (Tracker.iadd1 Tracker.Processed);;
    on _current (Tracker.iadd1 Tracker.Processed).

Definition increment_completed : M t unit :=
  self ← this;
  if is_None (Tracker.completed (total self))
     || is_None (Tracker.completed (current self))
  then mret tt
  else
    on _total (Tracker.iadd1 Tracker.Completed);;
    on _current (Tracker.iadd1 Tracker.Completed).

(** The increment that belongs to a stage. *)
Definition increment (f : Tracker.field) : M t unit :=
  match f with
  | Tracker.Ready => increment_ready
  | Tracker.Started => increment_started
  | Tracker.Processed => increment_processed
  | Tracker.Completed => increment_completed
  end.

Definition from_defaults (kwargs : Tracker.kwargs) : t :=
  mk (Tracker.new kwargs) (Tracker.new kwargs).

(** The fields of the dataclass, as [asdict] lists them. *)
Definition items (self : t) : gmap string value :=
  {[ "total" := asdict (total self);
     "current" := asdict (current self) ]}.

Definition __setstate__ (state : value) : M t unit :=
  (st ← lift (getitem state "total");
   on _total (Tracker.__setstate__ st));;
  (st ← lift (getitem state "current");
   on _current (Tracker.__setstate__ st)).

#[global] Instance mixin : StateDictMixin t := {
  cls := mk (Tracker.new Tracker.no_kwargs) (Tracker.new Tracker.no_kwargs);
  asdict self := VDict (items self);
  setstate := __setstate__
}.

End Progress.

(** ** [BatchProgress]: a [Progress] under another name *)

Module BatchProgress.

(** The class body is empty: every member, the mixin's included, is the
    one of [Progress]. *)
Abbreviation t := Progress.t.

End BatchProgress.

(** ** [EpochProgress] *)

Module EpochProgress.

Record t : Type := mk {
  super : Progress.t;
  dataloader_idx : value;
  batch : BatchProgress.t
}.

Definition _super : attr t Progress.t :=
  Attr super (λ o self, mk o (dataloader_idx self) (batch self)).
Definition _batch : attr t BatchProgress.t :=
  Attr batch (λ o self, mk (super self) (dataloader_idx self) o).
Definition set_dataloader_idx (v : value) (self : t) : t :=
  mk (super self) v (batch self).

(** Inherited fields. *)
Definition total (self : t) : Tracker.t := Progress.total (super self).
Definition current (self : t) : Tracker.t := Progress.current (super self).
Definition _total : attr t Tracker.t := _super ∘ₐ Progress._total.
Definition _current : attr t Tracker.t := _super ∘ₐ Progress._current.

(** Inherited method. *)
Definition increment_completed : M t unit :=
  on _super Progress.increment_completed.

Definition reset_on_epoch : M t unit :=
  on (_batch ∘ₐ Progress._current) Tracker.reset.

Definition items (self : t) : gmap string value :=
  <[ "dataloader_idx" := dataloader_idx self ]>
    (<[ "batch" := asdict (batch self) ]> (Progress.items (super self))).

Definition __setstate__ (state : value) : M t unit :=
  on _super (Progress.__setstate__ state);;
  (st ← lift (getitem state "batch");
   on _batch (Progress.__setstate__ st));;
  (v ← lift (getitem state "dataloader_idx");
   modify (set_dataloader_idx v)).

#[global] Instance mixin : StateDictMixin t := {
  cls := mk cls (VInt 0) cls;
  asdict self := VDict (items self);
  setstate := __setstate__
}.

End EpochProgress.

(** ** [OptimizerProgress] *)

Module OptimizerProgress.

Record t : Type := mk {
  step : Progress.t;
  zero_grad : Progress.t
}.

Definition _step : attr t Progress.t :=
  Attr step (λ o self, mk o (zero_grad self)).
Definition _zero_grad : attr t Progress.t :=
  Attr zero_grad (λ o self, mk (step self) o).

Definition reset_on_epoch : M t unit :=
  on (_step ∘ₐ Progress._current) Tracker.reset;;
  on (_zero_grad ∘ₐ Progress._current) Tracker.reset.

Definition __setstate__ (state : value) : M t unit :=
  (st ← lift (getitem state "step");
   on _step (Progress.__setstate__ st));;
  (st ← lift (getitem state "zero_grad");
   on _zero_grad (Progress.__setstate__ st)).

(** [processed=None] *)
Definition factory_kwargs : Tracker.kwargs :=
  Tracker.Kwargs None None (Some VNone) None.

#[global] Instance mixin : StateDictMixin t := {
  cls := mk (Progress.from_defaults factory_kwargs)
            (Progress.from_defaults factory_kwargs);
  asdict self :=
    VDict {[ "step" := asdict (step self);
             "zero_grad" := asdict (zero_grad self) ]};
  setstate := __setstate__
}.

End OptimizerProgress.

(** ** [OptimizationProgress] *)

Module OptimizationProgress.

Record t : Type := mk {
  optimizer_idx : value;
  optimizer : OptimizerProgress.t;
  scheduler : Progress.t
}.

Definition _optimizer : attr t OptimizerProgress.t :=
  Attr optimizer (λ o self, mk (optimizer_idx self) o (scheduler self)).
Definition _scheduler : attr t Progress.t :=
  Attr scheduler (λ o self, mk (optimizer_idx self) (optimizer self) o).
Definition set_optimizer_idx (v : value) (self : t) : t :=
  mk v (optimizer self) (scheduler self).

Definition optimizer_steps (self : t) : value :=
  Tracker.completed (Progress.total (OptimizerProgress.step (optimizer self))).

Definition scheduler_steps (self : t) : value :=
  Tracker.completed (Progress.total (scheduler self)).

Definition reset_on_epoch : M t unit :=
  on _optimizer OptimizerProgress.reset_on_epoch;;
  on (_scheduler ∘ₐ Progress._current) Tracker.reset.

Definition __setstate__ (state : value) : M t unit :=
  (st ← lift (getitem state "optimizer");
   on _optimizer (OptimizerProgress.__setstate__ st));;
  (st ← lift (getitem state "scheduler");
   on _scheduler (Progress.__setstate__ st));;
  (v ← lift (getitem state "optimizer_idx");
   modify (set_optimizer_idx v)).

(** [started=None, processed=None] *)
Definition factory_kwargs : Tracker.kwargs :=
  Tracker.Kwargs None (Some VNone) (Some VNone) None.

#[global] Instance mixin : StateDictMixin t := {
  cls := mk (VInt 0) cls (Progress.from_defaults factory_kwargs);
  asdict self :=
    VDict {[ "optimizer_idx" := optimizer_idx self;
             "optimizer" := asdict (optimizer self);
             "scheduler" := asdict (scheduler self) ]};
  setstate := __setstate__
}.

End OptimizationProgress.

(** ** [EpochLoopProgress] *)

Module EpochLoopProgress.

Record t : Type := mk { epoch : EpochProgress.t }.

Definition _epoch : attr t EpochProgress.t := Attr epoch (λ o _, mk o).

Definition total_epoch_completed (self : t) : value :=
  Tracker.completed (EpochProgress.total (epoch self)).

Definition reset_on_epoch : M t unit :=
  on _epoch EpochProgress.reset_on_epoch;;
  on (_epoch ∘ₐ EpochProgress._current) Tracker.reset.

Definition increment_epoch_completed : M t unit :=
  on _epoch EpochProgress.increment_completed;;
  reset_on_epoch.

Definition __setstate__ (state : value) : M t unit :=
  st ← lift (getitem state "epoch");
  on _epoch (EpochProgress.__setstate__ st).

#[global] Instance mixin : StateDictMixin t := {
  cls := mk cls;
  asdict self := VDict {[ "epoch" := asdict (epoch self) ]};
  setstate := __setstate__
}.

End EpochLoopProgress.

(** ** [TrainingValLoopPorgress] (spelled as in the source) *)

Module TrainingValLoopPorgress.

Record t : Type := mk {
  super : EpochLoopProgress.t;
  should_check_val : value
}.

Definition _super : attr t EpochLoopProgress.t :=
  Attr super (λ o self, mk o (should_check_val self)).
Definition set_should_check_val (v : value) (self : t) : t :=
  mk (super self) v.

(** Inherited field. *)
Definition epoch (self : t) : EpochProgress.t :=
  EpochLoopProgress.epoch (super self).
Definition _epoch : attr t EpochProgress.t :=
  _super ∘ₐ EpochLoopProgress._epoch.

(** Inherited members; the class overrides nothing they call. *)
Definition total_epoch_completed (self : t) : value :=
  EpochLoopProgress.total_epoch_completed (super self).
Definition reset_on_epoch : M t unit :=
  on _super EpochLoopProgress.reset_on_epoch.
Definition increment_epoch_completed : M t unit :=
  on _super EpochLoopProgress.increment_epoch_completed.

Definition __setstate__ (state : value) : M t unit :=
  (st ← lift (getitem state "epoch");
   on _epoch (EpochProgress.__setstate__ st));;
  (v ← lift (getitem state "should_check_val");
   modify (set_should_check_val v)).

#[global] Instance mixin : StateDictMixin t := {
  cls := mk cls (VBool false);
  asdict self :=
    VDict {[ "epoch" := asdict (epoch self);
             "should_check_val" := should_check_val self ]};
  setstate := __setstate__
}.

End TrainingValLoopPorgress.

(** ** [TrainingEpochProgress] *)

Module TrainingEpochProgress.

Record t : Type := mk {
  super : EpochProgress.t;
  optim : OptimizationProgress.t;
  val : TrainingValLoopPorgress.t
}.

Definition _super : attr t EpochProgress.t :=
  Attr super (λ o self, mk o (optim self) (val self)).
Definition _optim : attr t OptimizationProgress.t :=
  Attr optim (λ o self, mk (super self) o (val self)).
Definition _val : attr t TrainingValLoopPorgress.t :=
  Attr val (λ o self, mk (super self) (optim self) o).

(** Inherited fields. *)
Definition total (self : t) : Tracker.t := EpochProgress.total (super self).
Definition current (self : t) : Tracker.t :=
  EpochProgress.current (super self).
Definition batch (self : t) : BatchProgress.t :=
  EpochProgress.batch (super self).
Definition dataloader_idx (self : t) : value :=
  EpochProgress.dataloader_idx (super self).

(** Inherited methods. *)
Definition increment_completed : M t unit :=
  on _super EpochProgress.increment_completed.
Definition reset_on_epoch : M t unit :=
  on _super EpochProgress.reset_on_epoch.

Definition __setstate__ (state : value) : M t unit :=
  on _super (EpochProgress.__setstate__ state);;
  (st ← lift (getitem state "optim");
   on _optim (OptimizationProgress.__setstate__ st));;
  (st ← lift (getitem state "val");
   on _val (TrainingValLoopPorgress.__setstate__ st)).

#[global] Instance mixin : StateDictMixin t := {
  cls := mk cls cls cls;
  asdict self :=
    VDict (<[ "optim" := asdict (optim self) ]>
             (<[ "val" := asdict (val self) ]>
                (EpochProgress.items (super self))));
  setstate := __setstate__
}.

End TrainingEpochProgress.

(** ** [FitLoopProgress] *)

Module FitLoopProgress.

Record t : Type := mk { epoch : TrainingEpochProgress.t }.

Definition _epoch : attr t TrainingEpochProgress.t :=
  Attr epoch (λ o _, mk o).

Definition reset_on_epoch : M t unit :=
  on _epoch TrainingEpochProgress.reset_on_epoch;;
  on (_epoch ∘ₐ TrainingEpochProgress._optim)
     OptimizationProgress.reset_on_epoch.

Definition total_optimizer_step_completed (self : t) : value :=
  Tracker.completed
    (Progress.total
       (OptimizerProgress.step
          (OptimizationProgress.optimizer
             (TrainingEpochProgress.optim (epoch self))))).

(** Members inherited from [EpochLoopProgress]. Their bodies are those of
    the base class; [self.epoch] is a [TrainingEpochProgress] here, and
    [self.reset_on_epoch()] resolves to the override above. *)
Definition total_epoch_completed (self : t) : value :=
  Tracker.completed (TrainingEpochProgress.total (epoch self)).

Definition increment_epoch_completed : M t unit :=
  on _epoch TrainingEpochProgress.increment_completed;;
  reset_on_epoch.

Definition __setstate__ (state : value) : M t unit :=
  st ← lift (getitem state "epoch");
  on _epoch (TrainingEpochProgress.__setstate__ st).

#[global] Instance mixin : StateDictMixin t := {
  cls := mk cls;
  asdict self := VDict {[ "epoch" := asdict (epoch self) ]};
  setstate := __setstate__
}.

End FitLoopProgress.

(** * Properties *)

(** ** Vocabulary of the statements *)

(** What [reset] leaves in a field that held [v]. *)
Definition zero_enabled (v : value) : value :=
  if is_None v then VNone else VInt 0.

(** What [reset_on_restart] leaves in a field that held [v], when [carried]
    is the value carried forward. *)
Definition carry_enabled (carried v : value) : value :=
  if is_None v then VNone else carried.

(** The value that [reset_on_restart] carries forward. *)
Definition carried_forward (t : Tracker.t) : value :=
  if Tracker.disabled Tracker.Processed t
  then Tracker.completed t
  else Tracker.processed t.

(** A Tracker after [reset]. *)
Definition zeroed (t : Tracker.t) : Tracker.t :=
  Tracker.mk (zero_enabled (Tracker.ready t))
             (zero_enabled (Tracker.started t))
             (zero_enabled (Tracker.processed t))
             (zero_enabled (Tracker.completed t)).

(** A Progress after [current.reset()]. *)
Definition current_zeroed (p : Progress.t) : Progress.t :=
  Progress.mk (Progress.total p) (zeroed (Progress.current p)).

(** The exceptions that a restore can raise on the values above: a missing
    key, or [None], a boolean or an integer where a dict is expected. The
    guard's exception is not one of them. *)
Definition malformed_restore (e : exn) : Prop :=
  match e with
  | KeyError _ | TypeError => True
  | AttributeError _ => False
  end.

(** The call raised. *)
Definition fails {T : Type} (m : M T unit) (self : T) : Prop :=
  ∃ e self', raises m self e self'.

(** No object of class [T] can be restored from [state]: [__setstate__]
    raises on every receiver, and so does [from_state_dict]. *)
Definition rejects (T : Type) `{StateDictMixin T} (state : value) : Prop :=
  (∀ self : T, fails (setstate state) self)
  ∧ ∃ e, from_state_dict (T:=T) state = inl e.

(** The keys that the [__setstate__] of each composite subscripts its
    argument with, in the order of the reads. *)
Definition Progress_keys : list string := ["total"; "current"].
Definition EpochProgress_keys : list string :=
  ["total"; "current"; "batch"; "dataloader_idx"].
Definition OptimizerProgress_keys : list string := ["step"; "zero_grad"].
Definition OptimizationProgress_keys : list string :=
  ["optimizer"; "scheduler"; "optimizer_idx"].
Definition EpochLoopProgress_keys : list string := ["epoch"].
Definition TrainingValLoopPorgress_keys : list string :=
  ["epoch"; "should_check_val"].
Definition TrainingEpochProgress_keys : list string :=
  ["total"; "current"; "batch"; "dataloader_idx"; "optim"; "val"].
Definition FitLoopProgress_keys : list string := ["epoch"].

(** The enabled/disabled partition of a Tracker: for each stage in turn,
    whether it is disabled. *)
Definition partition (t : Tracker.t) : list bool :=
  (λ f, Tracker.disabled f t) <$> Tracker.fields.

(** The two Trackers of a Progress have the same partition. *)
Definition same_partition (p : Progress.t) : Prop :=
  partition (Progress.total p) = partition (Progress.current p).

(** The partition that a Tracker state dict induces: for each stage, whether
    the dict mentions it and, if so, whether it maps it to [None]. *)
Definition dict_partition (d : gmap string value) : list (option bool) :=
  (λ f, is_None <$> d !! Tracker.name f) <$> Tracker.fields.

(** The Progress objects inside a composite. *)
Class Progresses (T : Type) : Type := progresses : T → list Progress.t.

#[global] Instance EpochProgress_progresses : Progresses EpochProgress.t :=
  λ e, [EpochProgress.super e; EpochProgress.batch e].

#[global] Instance OptimizerProgress_progresses
  : Progresses OptimizerProgress.t :=
  λ o, [OptimizerProgress.step o; OptimizerProgress.zero_grad o].

#[global] Instance OptimizationProgress_progresses
  : Progresses OptimizationProgress.t :=
  λ o, progresses (OptimizationProgress.optimizer o)
       ++ [OptimizationProgress.scheduler o].

#[global] Instance EpochLoopProgress_progresses
  : Progresses EpochLoopProgress.t :=
  λ x, progresses (EpochLoopProgress.epoch x).

#[global] Instance TrainingValLoopPorgress_progresses
  : Progresses TrainingValLoopPorgress.t :=
  λ x, progresses (TrainingValLoopPorgress.super x).

#[global] Instance TrainingEpochProgress_progresses
  : Progresses TrainingEpochProgress.t :=
  λ e, progresses (TrainingEpochProgress.super e)
       ++ progresses (TrainingEpochProgress.optim e)
       ++ progresses (TrainingEpochProgress.val e).

#[global] Instance FitLoopProgress_progresses
  : Progresses FitLoopProgress.t :=
  λ x, progresses (FitLoopProgress.epoch x).

(** The partitions of the two Trackers of a Progress. *)
Definition partitions_of (p : Progress.t) : list bool * list bool :=
  (partition (Progress.total p), partition (Progress.current p)).

(** A value that a counter annotated [Optional[int]] may hold. *)
Definition is_counter (v : value) : bool :=
  match v with
  | VNone | VInt _ => true
  | _ => false
  end.

(** Every counter of the Progress holds [None] or an integer. *)
Definition typed (p : Progress.t) : Prop :=
  ∀ f, is_counter (Tracker.get f (Progress.total p)) = true
       ∧ is_counter (Tracker.get f (Progress.current p)) = true.

(** A stage of [total] and of [current] in step: both disabled, or two
    integers with [0 ≤ current ≤ total]. *)
Definition in_step (vt vc : value) : Prop :=
  match vt, vc with
  | VNone, VNone => True
  | VInt a, VInt b => (0 ≤ b ≤ a)%Z
  | _, _ => False
  end.

(** Every stage of the Progress is in step. *)
Definition ordered (p : Progress.t) : Prop :=
  ∀ f, in_step (Tracker.get f (Progress.total p))
               (Tracker.get f (Progress.current p)).

(** By how much [total] is ahead of [current] in a stage, when both hold
    integers. *)
Definition gap (vt vc : value) : option Z :=
  match vt, vc with
  | VInt a, VInt b => Some (a - b)%Z
  | _, _ => None
  end.

(** A Progress one step further in stage [f]: both counters advance when
    both hold integers, and nothing changes otherwise. *)
Definition advanced (f : Tracker.field) (p : Progress.t) : Progress.t :=
  match Tracker.get f (Progress.total p),
        Tracker.get f (Progress.current p) with
  | VInt a, VInt b =>
      Progress.mk (Tracker.set f (VInt (a + 1)) (Progress.total p))
                  (Tracker.set f (VInt (b + 1)) (Progress.current p))
  | _, _ => p
  end.

(** The keyword passed for a stage, if any. *)
Definition kw_get (f : Tracker.field) (kw : Tracker.kwargs) : option value :=
  match f with
  | Tracker.Ready => Tracker.kw_ready kw
  | Tracker.Started => Tracker.kw_started kw
  | Tracker.Processed => Tracker.kw_processed kw
  | Tracker.Completed => Tracker.kw_completed kw
  end.

(** [isinstance(v, dict)] *)
Definition is_dict (v : value) : bool :=
  match v with VDict _ => true | _ => false end.

(** The Progress objects of a [FitLoopProgress], by position in
    [progresses]. *)
Inductive node : Type :=
| NEpoch | NBatch | NStep | NZeroGrad | NScheduler | NValEpoch | NValBatch.

Definition node_index (n : node) : nat :=
  match n with
  | NEpoch => 0 | NBatch => 1 | NStep => 2 | NZeroGrad => 3
  | NScheduler => 4 | NValEpoch => 5 | NValBatch => 6
  end.

(** [self.epoch], [self.epoch.batch], [self.epoch.optim.optimizer.step],
    ... as attribute paths from the root. *)
Definition node_attr (n : node) : attr FitLoopProgress.t Progress.t :=
  let epoch := FitLoopProgress._epoch in
  let optim := epoch ∘ₐ TrainingEpochProgress._optim in
  let val_epoch :=
    epoch ∘ₐ TrainingEpochProgress._val ∘ₐ TrainingValLoopPorgress._epoch in
  match n with
  | NEpoch => epoch ∘ₐ TrainingEpochProgress._super ∘ₐ EpochProgress._super
  | NBatch => epoch ∘ₐ TrainingEpochProgress._super ∘ₐ EpochProgress._batch
  | NStep =>
      optim ∘ₐ OptimizationProgress._optimizer ∘ₐ OptimizerProgress._step
  | NZeroGrad =>
      optim ∘ₐ OptimizationProgress._optimizer ∘ₐ OptimizerProgress._zero_grad
  | NScheduler => optim ∘ₐ OptimizationProgress._scheduler
  | NValEpoch => val_epoch ∘ₐ EpochProgress._super
  | NValBatch => val_epoch ∘ₐ EpochProgress._batch
  end.

(** The calls a loop makes on the tree it owns. *)
Inductive call : Type :=
| Increment (n : node) (f : Tracker.field)
| IncrementEpochCompleted
| ResetOnEpoch
| ValIncrementEpochCompleted
| ValResetOnEpoch.

Definition perform (c : call) : M FitLoopProgress.t unit :=
  match c with
  | Increment n f => on (node_attr n) (Progress.increment f)
  | IncrementEpochCompleted => FitLoopProgress.increment_epoch_completed
  | ResetOnEpoch => FitLoopProgress.reset_on_epoch
  | ValIncrementEpochCompleted =>
      on (FitLoopProgress._epoch ∘ₐ TrainingEpochProgress._val)
         TrainingValLoopPorgress.increment_epoch_completed
  | ValResetOnEpoch =>
      on (FitLoopProgress._epoch ∘ₐ TrainingEpochProgress._val)
         TrainingValLoopPorgress.reset_on_epoch
  end.

(** The calls of a list, one after the other; a raise ends the run. *)
Fixpoint perform_all (cs : list call) : M FitLoopProgress.t unit :=
  match cs with
  | [] => mret tt
  | c :: cs' => perform c ;; perform_all cs'
  end.

#[global] Instance field_eq_dec : EqDecision Tracker.field.
Proof. solve_decision. Defined.

#[global] Instance node_eq_dec : EqDecision node.
Proof. solve_decision. Defined.

(** Whether the call goes through the increment of stage [f] of the
    Progress at [n]: the increment itself, or an
    [increment_epoch_completed] of the loop that owns that Progress. *)
Definition increments (n : node) (f : Tracker.field) (c : call) : bool :=
  match c with
  | Increment n' f' => bool_decide (n = n' ∧ f = f')
  | IncrementEpochCompleted =>
      bool_decide (n = NEpoch ∧ f = Tracker.Completed)
  | ValIncrementEpochCompleted =>
      bool_decide (n = NValEpoch ∧ f = Tracker.Completed)
  | ResetOnEpoch | ValResetOnEpoch => false
  end.

(** How many calls of the list go through that increment. *)
Fixpoint tally (n : node) (f : Tracker.field) (cs : list call) : nat :=
  match cs with
  | [] => 0
  | c :: cs' => (if increments n f c then 1 else 0) + tally n f cs'
  end.

(** A counter after [k] increments: an integer has advanced by [k],
    anything else is as it was. *)
Definition counted (k : nat) (v : value) : value :=
  match v with
  | VInt a => VInt (a + Z.of_nat k)
  | _ => v
  end.

(** ** Running method bodies *)

Ltac py_unfold :=
  unfold mbind, mret, M_bind, M_ret, this, lift, modify, raise, when, on,
    returns, raises.

Ltac split_keys H :=
  repeat (apply elem_of_cons in H as [-> | H]);
  [.. | apply elem_of_nil in H; contradiction].

Create HintDb restore.

(** The call under scrutiny raised. *)
Ltac raised := do 2 eexists; reflexivity.

(** Follow a restore through the outcomes of the calls it makes. *)
Ltac run_restore :=
  repeat match goal with
    | |- context [match ?d !! ?k with _ => _ end] => destruct (d !! k)
    | |- context [let (_, _) := ?f ?a ?b in _] =>
        let E := fresh "Hcall" in destruct (f a b) as [? [? | []]] eqn:E
    end;
  raised.

(** The restore of an attribute raised, so the restore of its owner did. *)
Ltac sub_restore_fails H :=
  let e := fresh "e" in
  let s := fresh "s" in
  let Hs := fresh "Hs" in
  destruct H as (e & s & Hs); red in Hs; rewrite Hs;
  do 2 eexists; reflexivity.

(** From a restore that raised to the call that raised in it. *)
Ltac trace_raise H :=
  repeat first
    [ discriminate H
    | (injection H as _ <-; solve [eauto with restore])
    | match type of H with
      | context [getitem ?s ?k] =>
          let E := fresh "Hget" in destruct (getitem s k) eqn:E
      | context [let (_, _) := ?f ?a ?b in _] =>
          let E := fresh "Hcall" in destruct (f a b) as [? [? | []]] eqn:E
      end ].

(** Split the invariant of a tree into one fact per Progress. *)
Ltac split_inv :=
  repeat (progress unfold progresses, FitLoopProgress_progresses,
    TrainingEpochProgress_progresses,
    TrainingValLoopPorgress_progresses, EpochLoopProgress_progresses,
    OptimizationProgress_progresses, OptimizerProgress_progresses,
    EpochProgress_progresses in * );
  cbn -[ordered current_zeroed] in *;
  rewrite !Forall_cons in *;
  repeat match goal with H : _ ∧ _ |- _ => destruct H end;
  repeat split; auto.

(** Open a [FitLoopProgress] down to its Trackers. *)
Ltac deep x :=
  destruct x as [[[[? ?] ? [? ?]] [? [[? ?] [? ?]] [? ?]]
                  [[[[? ?] ? [? ?]]] ?]]].

Lemma field_of_name (f : Tracker.field) :
  Tracker.field_of (Tracker.name f) = Some f.
Proof. destruct f; reflexivity. Qed.

(** An assignment to a stage either trips the guard and changes nothing, or
    stores the value. *)
Lemma setattr_stage (f : Tracker.field) (v : value) (t : Tracker.t) :
  Tracker.__setattr__ (Tracker.name f) v t =
  if Tracker.disabled f t
  then (t, inl (AttributeError (Tracker.name f)))
  else (Tracker.set f v t, inr tt).
Proof.
  unfold Tracker.__setattr__, Tracker.getattr, Tracker.object_setattr,
    Tracker.disabled.
  py_unfold. rewrite field_of_name.
  destruct (is_None (Tracker.get f t)); reflexivity.
Qed.

Lemma reset_eq (t : Tracker.t) : Tracker.reset t = (zeroed t, inr tt).
Proof. destruct t as [r s p c]; destruct r, s, p, c; reflexivity. Qed.

Lemma reset_on_restart_eq (t : Tracker.t) :
  Tracker.reset_on_restart t =
  (Tracker.mk (carry_enabled (carried_forward t) (Tracker.ready t))
              (carry_enabled (carried_forward t) (Tracker.started t))
              (carry_enabled (carried_forward t) (Tracker.processed t))
              (carry_enabled (carried_forward t) (Tracker.completed t)),
   inr tt).
Proof. destruct t as [r s p c]; destruct r, s, p, c; reflexivity. Qed.

Lemma iadd1_int (f : Tracker.field) (t : Tracker.t) (z : Z) :
  Tracker.get f t = VInt z →
  Tracker.iadd1 f t = (Tracker.set f (VInt (z + 1)) t, inr tt).
Proof.
  intros H. unfold Tracker.iadd1. py_unfold. rewrite H. cbn [add1].
  rewrite setattr_stage. unfold Tracker.disabled. rewrite H. reflexivity.
Qed.

Lemma get_set_same (f : Tracker.field) (v : value) (t : Tracker.t) :
  Tracker.get f (Tracker.set f v t) = v.
Proof. destruct f; reflexivity. Qed.

(** The generated [__init__] never trips the guard: each field still reads
    the class default when it is assigned. *)
Lemma tracker_init_returns (kw : Tracker.kwargs) :
  returns (Tracker.__init__ kw) Tracker.class_attrs
          (Tracker.mk (default (VInt 0) (Tracker.kw_ready kw))
                      (default (VInt 0) (Tracker.kw_started kw))
                      (default (VInt 0) (Tracker.kw_processed kw))
                      (default (VInt 0) (Tracker.kw_completed kw))).
Proof. reflexivity. Qed.

Lemma set_set (f : Tracker.field) (v w : value) (t : Tracker.t) :
  Tracker.set f w (Tracker.set f v t) = Tracker.set f w t.
Proof. destruct f; reflexivity. Qed.

(** ** The write guard *)

(** C5: an assignment to a disabled field of a Tracker raises the
    attribute-unused error whatever the value, and leaves the Tracker as it
    was; on a freshly constructed OptimizerProgress, assigning any value (so
    any integer) to [step.total.processed] raises it. *)
Theorem disabled_field_write_raises :
  (∀ (t : Tracker.t) (f : Tracker.field) (v : value),
      Tracker.disabled f t = true →
      raises (Tracker.__setattr__ (Tracker.name f) v) t
             (AttributeError (Tracker.name f)) t)
  ∧ (∀ v : value,
        raises (on (OptimizerProgress._step ∘ₐ Progress._total)
                   (Tracker.__setattr__ "processed" v))
               (cls : OptimizerProgress.t)
               (AttributeError "processed")
               cls).
Proof.
  split.
  - intros t f v H. unfold raises. rewrite setattr_stage, H. reflexivity.
  - intros v. reflexivity.
Qed.

Lemma disabled_field_write_raises_witness :
  raises (Tracker.__setattr__ "started" (VInt 7))
         (Tracker.mk (VInt 2) VNone VNone (VInt 1))
         (AttributeError "started")
         (Tracker.mk (VInt 2) VNone VNone (VInt 1)).
Proof.
  exact (proj1 disabled_field_write_raises
           (Tracker.mk (VInt 2) VNone VNone (VInt 1)) Tracker.Started (VInt 7)
           eq_refl).
Defined.

(** C10: an assignment to a stage field raises if and only if the field
    currently holds [None], and then the error is the attribute-unused one;
    assigning [None] to a field that holds something else succeeds and
    leaves the field disabled. *)
Theorem setattr_raises_iff_field_is_None
    (t : Tracker.t) (f : Tracker.field) (v : value) :
  ((∃ e t', raises (Tracker.__setattr__ (Tracker.name f) v) t e t')
   ↔ Tracker.get f t = VNone)
  ∧ (Tracker.get f t = VNone →
     raises (Tracker.__setattr__ (Tracker.name f) v) t
            (AttributeError (Tracker.name f)) t)
  ∧ (Tracker.get f t ≠ VNone →
     returns (Tracker.__setattr__ (Tracker.name f) VNone) t
             (Tracker.set f VNone t)
     ∧ Tracker.disabled f (Tracker.set f VNone t) = true).
Proof.
  unfold raises, returns. rewrite !setattr_stage. unfold Tracker.disabled.
  rewrite get_set_same.
  destruct (Tracker.get f t) eqn:E; cbn [is_None]; repeat split;
    try congruence; try (intros (e & t' & H); discriminate H);
    try (intros _; eauto).
Qed.

Lemma setattr_raises_iff_field_is_None_witness :
  returns (Tracker.__setattr__ "completed" VNone)
          (Tracker.mk (VInt 4) (VInt 4) (VInt 3) (VInt 3))
          (Tracker.mk (VInt 4) (VInt 4) (VInt 3) VNone)
  ∧ raises (Tracker.__setattr__ "completed" (VInt 9))
           (Tracker.mk (VInt 4) (VInt 4) (VInt 3) VNone)
           (AttributeError "completed")
           (Tracker.mk (VInt 4) (VInt 4) (VInt 3) VNone).
Proof.
  split.
  - refine (proj1 (proj2 (proj2 (setattr_raises_iff_field_is_None
             (Tracker.mk (VInt 4) (VInt 4) (VInt 3) (VInt 3))
             Tracker.Completed VNone)) _)).
    discriminate.
  - exact (proj1 (proj2 (setattr_raises_iff_field_is_None
             (Tracker.mk (VInt 4) (VInt 4) (VInt 3) VNone)
             Tracker.Completed (VInt 9))) eq_refl).
Defined.

(** ** Restart *)

(** C4: [reset_on_restart] returns normally; when [processed] is enabled,
    every field that was enabled holds the former value of [processed]
    afterwards, and when [processed] is disabled, every field that was
    enabled holds the former value of [completed]. A field that was disabled
    stays disabled, so the same holds of the fields enabled afterwards. *)
Theorem reset_on_restart_carries_forward (t : Tracker.t) :
  ∃ t', returns Tracker.reset_on_restart t t'
    ∧ (Tracker.disabled Tracker.Processed t = false →
       ∀ f, Tracker.disabled f t = false →
            Tracker.get f t' = Tracker.processed t)
    ∧ (Tracker.disabled Tracker.Processed t = true →
       ∀ f, Tracker.disabled f t = false →
            Tracker.get f t' = Tracker.completed t)
    ∧ (∀ f, Tracker.disabled f t = true → Tracker.get f t' = VNone)
    ∧ (∀ f, Tracker.disabled f t' = false →
            Tracker.get f t' = carried_forward t).
Proof.
  eexists. split; [apply reset_on_restart_eq |].
  unfold carried_forward, carry_enabled, Tracker.disabled.
  repeat split.
  - intros Hp f Hf. rewrite Hp. destruct f; cbn in *; rewrite Hf; reflexivity.
  - intros Hp f Hf. rewrite Hp. destruct f; cbn in *; rewrite Hf; reflexivity.
  - intros f Hf. destruct f; cbn in *; rewrite Hf; reflexivity.
  - intros f. destruct f; cbn;
      match goal with
      | |- context [is_None (?g t)] =>
          destruct (is_None (g t)) eqn:E; cbn; [discriminate | reflexivity]
      end.
Qed.

Lemma reset_on_restart_carries_forward_witness :
  ∃ t', returns Tracker.reset_on_restart
                (Tracker.mk (VInt 5) (VInt 4) (VInt 3) (VInt 2)) t'
    ∧ Tracker.get Tracker.Ready t' = VInt 3
    ∧ Tracker.get Tracker.Completed t' = VInt 3.
Proof.
  destruct (reset_on_restart_carries_forward
              (Tracker.mk (VInt 5) (VInt 4) (VInt 3) (VInt 2)))
    as (t' & Hret & Hproc & _).
  exists t'. split; [exact Hret |].
  split.
  - exact (Hproc eq_refl Tracker.Ready eq_refl).
  - exact (Hproc eq_refl Tracker.Completed eq_refl).
Defined.

(** ** What the guard covers *)

(** C2, as the code has it: the restore path copies a state dict into a
    Tracker without consulting the guard. Here [processed] is disabled, the
    dict carries 5 for it, and the call returns with 5 stored. *)
Lemma restore_stores_into_disabled_field :
  let t := Tracker.new OptimizerProgress.factory_kwargs in
  Tracker.disabled Tracker.Processed t = true
  ∧ returns (Tracker.__setstate__ (VDict {[ "processed" := VInt 5 ]})) t
            (Tracker.mk (VInt 0) (VInt 0) (VInt 5) (VInt 0))
  ∧ from_state_dict
      (VDict {[ "step" :=
                  VDict {[ "total" := VDict {[ "processed" := VInt 5 ]};
                           "current" := VDict ∅ ]};
                "zero_grad" :=
                  VDict {[ "total" := VDict ∅; "current" := VDict ∅ ]} ]})
    = inr (OptimizerProgress.mk
             (Progress.mk (Tracker.mk (VInt 0) (VInt 0) (VInt 5) (VInt 0))
                          (Tracker.mk (VInt 0) (VInt 0) VNone (VInt 0)))
             (OptimizerProgress.zero_grad cls)).
Proof. repeat split. Qed.

(** C2, amended: the guard fires on every assignment made through
    [__setattr__], whatever the value; [reset] and [reset_on_restart] return
    normally and leave every disabled field disabled; the restore path does
    not go through the guard: [__setstate__] returns normally on every dict
    and the Tracker then holds, for each stage the dict mentions, the dict's
    value, whether or not the stage was disabled. *)
Theorem guard_covers_setattr_not_restore :
  (∀ (t : Tracker.t) (f : Tracker.field) (v : value),
      Tracker.disabled f t = true →
      raises (Tracker.__setattr__ (Tracker.name f) v) t
             (AttributeError (Tracker.name f)) t)
  ∧ (∀ t : Tracker.t,
        ∃ t', returns Tracker.reset t t'
          ∧ ∀ f, Tracker.disabled f t = true → Tracker.get f t' = VNone)
  ∧ (∀ t : Tracker.t,
        ∃ t', returns Tracker.reset_on_restart t t'
          ∧ ∀ f, Tracker.disabled f t = true → Tracker.get f t' = VNone)
  ∧ (∀ (t : Tracker.t) (d : gmap string value),
        ∃ t', returns (Tracker.__setstate__ (VDict d)) t t'
          ∧ ∀ f v, d !! Tracker.name f = Some v → Tracker.get f t' = v).
Proof.
  repeat split.
  - intros t f v H. unfold raises. rewrite setattr_stage, H. reflexivity.
  - intros t. eexists. split; [apply reset_eq |].
    unfold Tracker.disabled, zeroed, zero_enabled.
    intros f Hf. destruct f; cbn in *; rewrite Hf; reflexivity.
  - intros t. eexists. split; [apply reset_on_restart_eq |].
    unfold Tracker.disabled, carry_enabled.
    intros f Hf. destruct f; cbn in *; rewrite Hf; reflexivity.
  - intros t d. eexists. split; [reflexivity |].
    intros f v Hd. destruct f; cbn in *; rewrite Hd; reflexivity.
Qed.

Lemma guard_covers_setattr_not_restore_witness :
  raises (Tracker.__setattr__ "processed" (VInt 1))
         (Tracker.mk (VInt 0) (VInt 0) VNone (VInt 0))
         (AttributeError "processed")
         (Tracker.mk (VInt 0) (VInt 0) VNone (VInt 0))
  ∧ ∃ t', returns (Tracker.__setstate__ (VDict {[ "processed" := VInt 1 ]}))
                  (Tracker.mk (VInt 0) (VInt 0) VNone (VInt 0)) t'
      ∧ Tracker.get Tracker.Processed t' = VInt 1.
Proof.
  destruct guard_covers_setattr_not_restore as (Hset & _ & _ & Hrestore).
  split.
  - exact (Hset (Tracker.mk (VInt 0) (VInt 0) VNone (VInt 0))
             Tracker.Processed (VInt 1) eq_refl).
  - destruct (Hrestore (Tracker.mk (VInt 0) (VInt 0) VNone (VInt 0))
                {[ "processed" := VInt 1 ]}) as (t' & Hret & Hget).
    exists t'. split; [exact Hret |].
    exact (Hget Tracker.Processed (VInt 1) eq_refl).
Defined.

(** ** Increments *)

Lemma increment_enabled (f : Tracker.field) (p : Progress.t) (a b : Z) :
  Tracker.get f (Progress.total p) = VInt a →
  Tracker.get f (Progress.current p) = VInt b →
  Progress.increment f p =
  (Progress.mk (Tracker.set f (VInt (a + 1)) (Progress.total p))
               (Tracker.set f (VInt (b + 1)) (Progress.current p)), inr tt).
Proof.
  intros Ha Hb.
  assert (Hstep :
    (on Progress._total (Tracker.iadd1 f);;
     on Progress._current (Tracker.iadd1 f)) p =
    (Progress.mk (Tracker.set f (VInt (a + 1)) (Progress.total p))
                 (Tracker.set f (VInt (b + 1)) (Progress.current p)), inr tt)).
  { py_unfold. cbn [view update Progress._total Progress._current].
    rewrite (iadd1_int f _ a Ha). cbn [Progress.current Progress.total].
    rewrite (iadd1_int f _ b Hb). reflexivity. }
  destruct f; cbn [Progress.increment Tracker.get] in *;
    unfold Progress.increment_ready, Progress.increment_started,
      Progress.increment_processed, Progress.increment_completed;
    unfold mbind at 1; unfold M_bind at 1; unfold this at 1;
    rewrite Ha, Hb; cbn [is_None orb]; exact Hstep.
Qed.

Lemma increment_disabled (f : Tracker.field) (p : Progress.t) :
  Tracker.disabled f (Progress.total p) = true
  ∨ Tracker.disabled f (Progress.current p) = true →
  Progress.increment f p = (p, inr tt).
Proof.
  unfold Tracker.disabled. intros H.
  assert (Hor : is_None (Tracker.get f (Progress.total p))
                || is_None (Tracker.get f (Progress.current p)) = true).
  { destruct H as [H | H]; rewrite H; [reflexivity | apply orb_true_r]. }
  destruct f; cbn [Progress.increment Tracker.get] in *;
    unfold Progress.increment_ready, Progress.increment_started,
      Progress.increment_processed, Progress.increment_completed;
    unfold mbind at 1; unfold M_bind at 1; unfold this at 1;
    rewrite Hor; reflexivity.
Qed.

Lemma repeat_call_succ {T : Type} (n : nat) (m : M T unit) (s s' : T) :
  m s = (s', inr tt) → repeat_call (S n) m s = repeat_call n m s'.
Proof. intros H. cbn [repeat_call]. py_unfold. rewrite H. reflexivity. Qed.

Lemma repeat_call_fixed {T : Type} (n : nat) (m : M T unit) (s : T) :
  m s = (s, inr tt) → repeat_call n m s = (s, inr tt).
Proof.
  intros H. induction n as [| n IH]; [reflexivity |].
  rewrite (repeat_call_succ n m s s H). exact IH.
Qed.

Lemma increment_enabled_many (f : Tracker.field) (n : nat) :
  ∀ (p : Progress.t) (a b : Z),
    Tracker.get f (Progress.total p) = VInt a →
    Tracker.get f (Progress.current p) = VInt b →
    repeat_call n (Progress.increment f) p =
    (Progress.mk (Tracker.set f (VInt (a + Z.of_nat n)) (Progress.total p))
                 (Tracker.set f (VInt (b + Z.of_nat n)) (Progress.current p)),
     inr tt).
Proof.
  induction n as [| n IH]; intros p a b Ha Hb.
  - cbn [repeat_call Z.of_nat]. rewrite !Z.add_0_r.
    destruct p as [[] []], f; cbn in *; subst; reflexivity.
  - rewrite (repeat_call_succ n _ p _ (increment_enabled f p a b Ha Hb)).
    rewrite (IH _ (a + 1)%Z (b + 1)%Z) by apply get_set_same.
    cbn [Progress.total Progress.current]. rewrite !set_set.
    replace (a + 1 + Z.of_nat n)%Z with (a + Z.of_nat (S n))%Z by lia.
    replace (b + 1 + Z.of_nat n)%Z with (b + Z.of_nat (S n))%Z by lia.
    reflexivity.
Qed.

(** C6: when the stage of an increment holds the integers [a] in [total] and
    [b] in [current], [n] calls of that increment return normally and leave
    [a + n] and [b + n] there, every other field being as before; when the
    stage is disabled in either Tracker, the call (and so any number of
    calls) returns normally and changes nothing. This holds of each of
    [increment_ready], [increment_started], [increment_processed] and
    [increment_completed]. *)
Theorem increment_advances_or_skips
    (f : Tracker.field) (p : Progress.t) (n : nat) :
  (∀ a b : Z,
      Tracker.get f (Progress.total p) = VInt a →
      Tracker.get f (Progress.current p) = VInt b →
      returns (repeat_call n (Progress.increment f)) p
        (Progress.mk
           (Tracker.set f (VInt (a + Z.of_nat n)) (Progress.total p))
           (Tracker.set f (VInt (b + Z.of_nat n)) (Progress.current p))))
  ∧ (Tracker.disabled f (Progress.total p) = true
     ∨ Tracker.disabled f (Progress.current p) = true →
     returns (Progress.increment f) p p
     ∧ returns (repeat_call n (Progress.increment f)) p p)
  ∧ Progress.increment Tracker.Ready = Progress.increment_ready
  ∧ Progress.increment Tracker.Started = Progress.increment_started
  ∧ Progress.increment Tracker.Processed = Progress.increment_processed
  ∧ Progress.increment Tracker.Completed = Progress.increment_completed.
Proof.
  split; [| split; [| repeat split]].
  - intros a b Ha Hb. apply increment_enabled_many; assumption.
  - intros H. pose proof (increment_disabled f p H) as Hskip.
    split; [exact Hskip |]. apply repeat_call_fixed, Hskip.
Qed.

Lemma increment_advances_or_skips_witness :
  returns (repeat_call 3 Progress.increment_completed)
          (Progress.mk (Tracker.mk (VInt 9) (VInt 9) VNone (VInt 8))
                       (Tracker.mk (VInt 2) (VInt 2) VNone (VInt 1)))
          (Progress.mk (Tracker.mk (VInt 9) (VInt 9) VNone (VInt 11))
                       (Tracker.mk (VInt 2) (VInt 2) VNone (VInt 4)))
  ∧ returns Progress.increment_processed
            (Progress.mk (Tracker.mk (VInt 9) (VInt 9) VNone (VInt 8))
                         (Tracker.mk (VInt 2) (VInt 2) VNone (VInt 1)))
            (Progress.mk (Tracker.mk (VInt 9) (VInt 9) VNone (VInt 8))
                         (Tracker.mk (VInt 2) (VInt 2) VNone (VInt 1))).
Proof.
  split.
  - exact (proj1 (increment_advances_or_skips Tracker.Completed
                    (Progress.mk (Tracker.mk (VInt 9) (VInt 9) VNone (VInt 8))
                                 (Tracker.mk (VInt 2) (VInt 2) VNone (VInt 1)))
                    3)
             8%Z 1%Z eq_refl eq_refl).
  - exact (proj1 (proj1 (proj2 (increment_advances_or_skips Tracker.Processed
                    (Progress.mk (Tracker.mk (VInt 9) (VInt 9) VNone (VInt 8))
                                 (Tracker.mk (VInt 2) (VInt 2) VNone (VInt 1)))
                    0))
             (or_introl eq_refl))).
Defined.

(** ** Epoch boundaries *)

Lemma get_zeroed (f : Tracker.field) (t : Tracker.t) :
  Tracker.get f (zeroed t) = zero_enabled (Tracker.get f t).
Proof. destruct f; reflexivity. Qed.

Lemma on_current_reset {T : Type} (a : attr T Progress.t) (self : T) :
  on (a ∘ₐ Progress._current) Tracker.reset self =
  (update a (current_zeroed (view a self)) self, inr tt).
Proof.
  unfold on, then_. cbn [view update Progress._current].
  rewrite reset_eq. reflexivity.
Qed.

Lemma epoch_reset_on_epoch_eq (e : EpochProgress.t) :
  EpochProgress.reset_on_epoch e =
  (EpochProgress.mk (EpochProgress.super e) (EpochProgress.dataloader_idx e)
                    (current_zeroed (EpochProgress.batch e)), inr tt).
Proof. unfold EpochProgress.reset_on_epoch. apply on_current_reset. Qed.

Lemma optimizer_reset_on_epoch_eq (o : OptimizerProgress.t) :
  OptimizerProgress.reset_on_epoch o =
  (OptimizerProgress.mk (current_zeroed (OptimizerProgress.step o))
                        (current_zeroed (OptimizerProgress.zero_grad o)),
   inr tt).
Proof.
  unfold OptimizerProgress.reset_on_epoch, mbind, M_bind.
  rewrite !on_current_reset. reflexivity.
Qed.

Lemma optimization_reset_on_epoch_eq (o : OptimizationProgress.t) :
  OptimizationProgress.reset_on_epoch o =
  (OptimizationProgress.mk
     (OptimizationProgress.optimizer_idx o)
     (OptimizerProgress.mk
        (current_zeroed
           (OptimizerProgress.step (OptimizationProgress.optimizer o)))
        (current_zeroed
           (OptimizerProgress.zero_grad (OptimizationProgress.optimizer o))))
     (current_zeroed (OptimizationProgress.scheduler o)),
   inr tt).
Proof.
  unfold OptimizationProgress.reset_on_epoch, mbind, M_bind.
  unfold on at 1. rewrite optimizer_reset_on_epoch_eq.
  rewrite on_current_reset. reflexivity.
Qed.

Lemma epoch_loop_reset_on_epoch_eq (x : EpochLoopProgress.t) :
  EpochLoopProgress.reset_on_epoch x =
  (EpochLoopProgress.mk
     (EpochProgress.mk
        (current_zeroed (EpochProgress.super (EpochLoopProgress.epoch x)))
        (EpochProgress.dataloader_idx (EpochLoopProgress.epoch x))
        (current_zeroed (EpochProgress.batch (EpochLoopProgress.epoch x)))),
   inr tt).
Proof.
  unfold EpochLoopProgress.reset_on_epoch, mbind, M_bind.
  unfold on at 1. rewrite epoch_reset_on_epoch_eq.
  unfold EpochProgress._current. unfold on, then_.
  cbn [view update EpochLoopProgress._epoch EpochProgress._super
       Progress._current EpochLoopProgress.epoch EpochProgress.super
       EpochProgress.dataloader_idx EpochProgress.batch].
  rewrite reset_eq. reflexivity.
Qed.

Lemma fit_reset_on_epoch_eq (x : FitLoopProgress.t) :
  FitLoopProgress.reset_on_epoch x =
  (let e := FitLoopProgress.epoch x in
   let o := TrainingEpochProgress.optim e in
   FitLoopProgress.mk
     (TrainingEpochProgress.mk
        (EpochProgress.mk
           (EpochProgress.super (TrainingEpochProgress.super e))
           (TrainingEpochProgress.dataloader_idx e)
           (current_zeroed (TrainingEpochProgress.batch e)))
        (OptimizationProgress.mk
           (OptimizationProgress.optimizer_idx o)
           (OptimizerProgress.mk
              (current_zeroed
                 (OptimizerProgress.step (OptimizationProgress.optimizer o)))
              (current_zeroed
                 (OptimizerProgress.zero_grad
                    (OptimizationProgress.optimizer o))))
           (current_zeroed (OptimizationProgress.scheduler o)))
        (TrainingEpochProgress.val e)),
   inr tt).
Proof.
  unfold FitLoopProgress.reset_on_epoch, mbind, M_bind.
  unfold TrainingEpochProgress.reset_on_epoch.
  unfold on at 1 2. rewrite epoch_reset_on_epoch_eq.
  unfold on, then_.
  cbn [view update FitLoopProgress._epoch TrainingEpochProgress._super
       TrainingEpochProgress._optim FitLoopProgress.epoch
       TrainingEpochProgress.super TrainingEpochProgress.optim
       TrainingEpochProgress.val].
  rewrite optimization_reset_on_epoch_eq. reflexivity.
Qed.

(** C7: [FitLoopProgress.reset_on_epoch] returns normally; it leaves
    [epoch.current] (so [epoch.current.completed]) and [epoch.total] as they
    were, and in [epoch.optim.scheduler.current],
    [epoch.optim.optimizer.step.current],
    [epoch.optim.optimizer.zero_grad.current] and [epoch.batch.current] every
    enabled field becomes 0 while a disabled one stays [None]. The [total]
    Trackers next to those four, the validation progress and the two indices
    are untouched. *)
Theorem fit_reset_on_epoch_keeps_epoch_current (x : FitLoopProgress.t) :
  let e := FitLoopProgress.epoch x in
  let o := TrainingEpochProgress.optim e in
  let opt := OptimizationProgress.optimizer o in
  ∃ x', returns FitLoopProgress.reset_on_epoch x x'
    ∧ let e' := FitLoopProgress.epoch x' in
      let o' := TrainingEpochProgress.optim e' in
      let opt' := OptimizationProgress.optimizer o' in
      TrainingEpochProgress.current e' = TrainingEpochProgress.current e
      ∧ TrainingEpochProgress.total e' = TrainingEpochProgress.total e
      ∧ (∀ f, Tracker.get f (Progress.current (OptimizationProgress.scheduler o'))
              = zero_enabled
                  (Tracker.get f
                     (Progress.current (OptimizationProgress.scheduler o))))
      ∧ (∀ f, Tracker.get f (Progress.current (OptimizerProgress.step opt'))
              = zero_enabled
                  (Tracker.get f (Progress.current (OptimizerProgress.step opt))))
      ∧ (∀ f, Tracker.get f (Progress.current (OptimizerProgress.zero_grad opt'))
              = zero_enabled
                  (Tracker.get f
                     (Progress.current (OptimizerProgress.zero_grad opt))))
      ∧ (∀ f, Tracker.get f (Progress.current (TrainingEpochProgress.batch e'))
              = zero_enabled
                  (Tracker.get f
                     (Progress.current (TrainingEpochProgress.batch e))))
      ∧ Progress.total (OptimizationProgress.scheduler o')
        = Progress.total (OptimizationProgress.scheduler o)
      ∧ Progress.total (OptimizerProgress.step opt')
        = Progress.total (OptimizerProgress.step opt)
      ∧ Progress.total (OptimizerProgress.zero_grad opt')
        = Progress.total (OptimizerProgress.zero_grad opt)
      ∧ Progress.total (TrainingEpochProgress.batch e')
        = Progress.total (TrainingEpochProgress.batch e)
      ∧ TrainingEpochProgress.val e' = TrainingEpochProgress.val e
      ∧ TrainingEpochProgress.dataloader_idx e'
        = TrainingEpochProgress.dataloader_idx e
      ∧ OptimizationProgress.optimizer_idx o'
        = OptimizationProgress.optimizer_idx o.
Proof.
  intros e o opt. eexists. split; [apply fit_reset_on_epoch_eq |].
  cbn. repeat split; intros f; apply get_zeroed.
Qed.

(** The epoch counter after one more completed epoch. *)
Lemma epoch_increment_completed_eq (e : EpochProgress.t) (a b : Z) :
  Tracker.completed (EpochProgress.total e) = VInt a →
  Tracker.completed (EpochProgress.current e) = VInt b →
  EpochProgress.increment_completed e =
  (EpochProgress.mk
     (Progress.mk
        (Tracker.set Tracker.Completed (VInt (a + 1)) (EpochProgress.total e))
        (Tracker.set Tracker.Completed (VInt (b + 1))
           (EpochProgress.current e)))
     (EpochProgress.dataloader_idx e) (EpochProgress.batch e),
   inr tt).
Proof.
  intros Ha Hb. unfold EpochProgress.increment_completed, on.
  cbn [view update EpochProgress._super].
  change Progress.increment_completed
    with (Progress.increment Tracker.Completed).
  rewrite (increment_enabled Tracker.Completed _ a b Ha Hb). reflexivity.
Qed.

Lemma epoch_increment_completed_skip (e : EpochProgress.t) :
  Tracker.completed (EpochProgress.total e) = VNone
  ∨ Tracker.completed (EpochProgress.current e) = VNone →
  EpochProgress.increment_completed e = (e, inr tt).
Proof.
  intros H. unfold EpochProgress.increment_completed, on.
  cbn [view update EpochProgress._super].
  change Progress.increment_completed
    with (Progress.increment Tracker.Completed).
  rewrite increment_disabled.
  - destruct e; reflexivity.
  - unfold Tracker.disabled. cbn [Tracker.get].
    unfold EpochProgress.total, EpochProgress.current in H.
    destruct H as [H | H]; rewrite H; auto.
Qed.

Lemma fit_increment_epoch_completed_eq (x : FitLoopProgress.t) (a b : Z) :
  Tracker.completed (TrainingEpochProgress.total (FitLoopProgress.epoch x))
  = VInt a →
  Tracker.completed (TrainingEpochProgress.current (FitLoopProgress.epoch x))
  = VInt b →
  ∃ x1 x',
    returns (on FitLoopProgress._epoch TrainingEpochProgress.increment_completed)
            x x1
    ∧ Tracker.completed
        (TrainingEpochProgress.total (FitLoopProgress.epoch x1))
      = VInt (a + 1)
    ∧ Tracker.completed
        (TrainingEpochProgress.current (FitLoopProgress.epoch x1))
      = VInt (b + 1)
    ∧ returns FitLoopProgress.reset_on_epoch x1 x'
    ∧ returns FitLoopProgress.increment_epoch_completed x x'
    ∧ Tracker.completed
        (TrainingEpochProgress.total (FitLoopProgress.epoch x'))
      = VInt (a + 1)
    ∧ Tracker.completed
        (TrainingEpochProgress.current (FitLoopProgress.epoch x'))
      = VInt (b + 1).
Proof.
  intros Ha Hb.
  assert (H1 : ∃ x1,
    on FitLoopProgress._epoch TrainingEpochProgress.increment_completed x
    = (x1, inr tt)
    ∧ Tracker.completed
        (TrainingEpochProgress.total (FitLoopProgress.epoch x1))
      = VInt (a + 1)
    ∧ Tracker.completed
        (TrainingEpochProgress.current (FitLoopProgress.epoch x1))
      = VInt (b + 1)).
  { unfold TrainingEpochProgress.increment_completed.
    unfold on at 1 2.
    cbn [view update FitLoopProgress._epoch TrainingEpochProgress._super].
    rewrite (epoch_increment_completed_eq _ a b Ha Hb).
    eexists. split; [reflexivity |]. split; reflexivity. }
  destruct H1 as (x1 & Hx1 & Ht & Hc).
  exists x1. eexists. unfold returns.
  split; [exact Hx1 |]. split; [exact Ht |]. split; [exact Hc |].
  split; [apply fit_reset_on_epoch_eq |].
  split.
  - unfold FitLoopProgress.increment_epoch_completed, mbind, M_bind.
    rewrite Hx1. apply fit_reset_on_epoch_eq.
  - split; [exact Ht | exact Hc].
Qed.

Lemma fit_increment_epoch_completed_many (n : nat) :
  ∀ (x : FitLoopProgress.t) (a b : Z),
    Tracker.completed (TrainingEpochProgress.total (FitLoopProgress.epoch x))
    = VInt a →
    Tracker.completed
      (TrainingEpochProgress.current (FitLoopProgress.epoch x))
    = VInt b →
    ∃ x', returns (repeat_call n FitLoopProgress.increment_epoch_completed)
                  x x'
      ∧ FitLoopProgress.total_epoch_completed x' = VInt (a + Z.of_nat n).
Proof.
  induction n as [| n IH]; intros x a b Ha Hb.
  - exists x. split; [reflexivity |].
    unfold FitLoopProgress.total_epoch_completed.
    rewrite Ha, Z.add_0_r. reflexivity.
  - destruct (fit_increment_epoch_completed_eq x a b Ha Hb)
      as (x1 & x' & _ & _ & _ & _ & Hcall & Ht & Hc).
    destruct (IH x' (a + 1)%Z (b + 1)%Z Ht Hc) as (x'' & Hrest & Htotal).
    exists x''. unfold returns in *.
    rewrite (repeat_call_succ n _ x x' Hcall).
    split; [exact Hrest |].
    rewrite Htotal. f_equal. lia.
Qed.

Lemma epoch_loop_increment_epoch_completed_eq
    (x : EpochLoopProgress.t) (a b : Z) :
  Tracker.completed (EpochProgress.total (EpochLoopProgress.epoch x))
  = VInt a →
  Tracker.completed (EpochProgress.current (EpochLoopProgress.epoch x))
  = VInt b →
  ∃ x1 x',
    returns (on EpochLoopProgress._epoch EpochProgress.increment_completed)
            x x1
    ∧ Tracker.completed (EpochProgress.total (EpochLoopProgress.epoch x1))
      = VInt (a + 1)
    ∧ Tracker.completed (EpochProgress.current (EpochLoopProgress.epoch x1))
      = VInt (b + 1)
    ∧ returns EpochLoopProgress.reset_on_epoch x1 x'
    ∧ returns EpochLoopProgress.increment_epoch_completed x x'
    ∧ EpochLoopProgress.total_epoch_completed x' = VInt (a + 1).
Proof.
  intros Ha Hb.
  assert (H1 : ∃ x1,
    on EpochLoopProgress._epoch EpochProgress.increment_completed x
    = (x1, inr tt)
    ∧ Tracker.completed (EpochProgress.total (EpochLoopProgress.epoch x1))
      = VInt (a + 1)
    ∧ Tracker.completed (EpochProgress.current (EpochLoopProgress.epoch x1))
      = VInt (b + 1)).
  { unfold on. cbn [view update EpochLoopProgress._epoch].
    rewrite (epoch_increment_completed_eq _ a b Ha Hb).
    eexists. split; [reflexivity |]. split; reflexivity. }
  destruct H1 as (x1 & Hx1 & Ht & Hc).
  exists x1. eexists. unfold returns.
  split; [exact Hx1 |]. split; [exact Ht |]. split; [exact Hc |].
  split; [apply epoch_loop_reset_on_epoch_eq |].
  split.
  - unfold EpochLoopProgress.increment_epoch_completed, mbind, M_bind.
    rewrite Hx1. apply epoch_loop_reset_on_epoch_eq.
  - exact Ht.
Qed.

(** C8: [increment_epoch_completed] is one call that first advances
    [epoch.total.completed] and [epoch.current.completed] by one (they hold
    the integers [a] and [b]) and then runs the receiver's own
    [reset_on_epoch] on the result, for [EpochLoopProgress],
    [TrainingValLoopPorgress] and [FitLoopProgress]; afterwards
    [total_epoch_completed] is [a + 1]. When the completed stage is disabled
    in either Tracker the increment is skipped and only [reset_on_epoch]
    runs. On a fresh [FitLoopProgress], [n] calls return normally with
    [total_epoch_completed = n]; in particular three calls give 3. *)
Theorem increment_epoch_completed_advances_then_resets :
  (∀ (x : EpochLoopProgress.t) (a b : Z),
      Tracker.completed (EpochProgress.total (EpochLoopProgress.epoch x))
      = VInt a →
      Tracker.completed (EpochProgress.current (EpochLoopProgress.epoch x))
      = VInt b →
      ∃ x1 x',
        returns (on EpochLoopProgress._epoch EpochProgress.increment_completed)
                x x1
        ∧ Tracker.completed (EpochProgress.total (EpochLoopProgress.epoch x1))
          = VInt (a + 1)
        ∧ Tracker.completed
            (EpochProgress.current (EpochLoopProgress.epoch x1))
          = VInt (b + 1)
        ∧ returns EpochLoopProgress.reset_on_epoch x1 x'
        ∧ returns EpochLoopProgress.increment_epoch_completed x x'
        ∧ EpochLoopProgress.total_epoch_completed x' = VInt (a + 1))
  ∧ (∀ (x : TrainingValLoopPorgress.t) (a b : Z),
        Tracker.completed
          (EpochProgress.total (TrainingValLoopPorgress.epoch x))
        = VInt a →
        Tracker.completed
          (EpochProgress.current (TrainingValLoopPorgress.epoch x))
        = VInt b →
        ∃ s',
          returns EpochLoopProgress.increment_epoch_completed
                  (TrainingValLoopPorgress.super x) s'
          ∧ returns TrainingValLoopPorgress.increment_epoch_completed x
              (TrainingValLoopPorgress.mk s'
                 (TrainingValLoopPorgress.should_check_val x))
          ∧ TrainingValLoopPorgress.total_epoch_completed
              (TrainingValLoopPorgress.mk s'
                 (TrainingValLoopPorgress.should_check_val x))
            = VInt (a + 1))
  ∧ (∀ (x : FitLoopProgress.t) (a b : Z),
        Tracker.completed
          (TrainingEpochProgress.total (FitLoopProgress.epoch x))
        = VInt a →
        Tracker.completed
          (TrainingEpochProgress.current (FitLoopProgress.epoch x))
        = VInt b →
        ∃ x1 x',
          returns (on FitLoopProgress._epoch
                      TrainingEpochProgress.increment_completed) x x1
          ∧ Tracker.completed
              (TrainingEpochProgress.total (FitLoopProgress.epoch x1))
            = VInt (a + 1)
          ∧ Tracker.completed
              (TrainingEpochProgress.current (FitLoopProgress.epoch x1))
            = VInt (b + 1)
          ∧ returns FitLoopProgress.reset_on_epoch x1 x'
          ∧ returns FitLoopProgress.increment_epoch_completed x x'
          ∧ FitLoopProgress.total_epoch_completed x' = VInt (a + 1)
          ∧ Tracker.completed
              (TrainingEpochProgress.current (FitLoopProgress.epoch x'))
            = VInt (b + 1))
  ∧ (∀ x : EpochLoopProgress.t,
        Tracker.completed (EpochProgress.total (EpochLoopProgress.epoch x))
        = VNone
        ∨ Tracker.completed
            (EpochProgress.current (EpochLoopProgress.epoch x))
          = VNone →
        EpochLoopProgress.increment_epoch_completed x
        = EpochLoopProgress.reset_on_epoch x)
  ∧ (∀ x : FitLoopProgress.t,
        Tracker.completed
          (TrainingEpochProgress.total (FitLoopProgress.epoch x))
        = VNone
        ∨ Tracker.completed
            (TrainingEpochProgress.current (FitLoopProgress.epoch x))
          = VNone →
        FitLoopProgress.increment_epoch_completed x
        = FitLoopProgress.reset_on_epoch x)
  ∧ (∀ n : nat,
        ∃ x', returns (repeat_call n FitLoopProgress.increment_epoch_completed)
                      cls x'
          ∧ FitLoopProgress.total_epoch_completed x' = VInt (Z.of_nat n))
  ∧ (∃ x', returns (repeat_call 3 FitLoopProgress.increment_epoch_completed)
                   cls x'
       ∧ FitLoopProgress.total_epoch_completed x' = VInt 3).
Proof.
  split; [exact epoch_loop_increment_epoch_completed_eq |].
  split.
  { intros x a b Ha Hb.
    destruct (epoch_loop_increment_epoch_completed_eq
                (TrainingValLoopPorgress.super x) a b Ha Hb)
      as (x1 & s' & _ & _ & _ & _ & Hcall & Htotal).
    exists s'. split; [exact Hcall |]. split; [| exact Htotal].
    unfold returns in *.
    unfold TrainingValLoopPorgress.increment_epoch_completed, on.
    cbn [view update TrainingValLoopPorgress._super].
    rewrite Hcall. reflexivity. }
  split.
  { intros x a b Ha Hb.
    destruct (fit_increment_epoch_completed_eq x a b Ha Hb)
      as (x1 & x' & H1 & H2 & H3 & H4 & H5 & H6 & H7).
    exists x1, x'. repeat (split; [assumption |]). assumption. }
  split.
  { intros x H.
    unfold EpochLoopProgress.increment_epoch_completed, mbind, M_bind.
    unfold on at 1. cbn [view update EpochLoopProgress._epoch].
    rewrite (epoch_increment_completed_skip _ H). destruct x; reflexivity. }
  split.
  { intros x H.
    unfold FitLoopProgress.increment_epoch_completed, mbind, M_bind.
    unfold TrainingEpochProgress.increment_completed. unfold on at 1 2.
    cbn [view update FitLoopProgress._epoch TrainingEpochProgress._super].
    rewrite (epoch_increment_completed_skip _ H).
    destruct x as [[]]; reflexivity. }
  split.
  { intros n.
    exact (fit_increment_epoch_completed_many n cls 0%Z 0%Z eq_refl eq_refl). }
  exact (fit_increment_epoch_completed_many 3 cls 0%Z 0%Z eq_refl eq_refl).
Qed.

Lemma increment_epoch_completed_advances_then_resets_witness :
  ∃ x1 x',
    returns (on FitLoopProgress._epoch
                TrainingEpochProgress.increment_completed) cls x1
    ∧ returns FitLoopProgress.reset_on_epoch x1 x'
    ∧ returns FitLoopProgress.increment_epoch_completed cls x'
    ∧ FitLoopProgress.total_epoch_completed x' = VInt 1.
Proof.
  destruct increment_epoch_completed_advances_then_resets
    as (_ & _ & Hfit & _).
  destruct (Hfit (@cls _ FitLoopProgress.mixin) 0%Z 0%Z eq_refl eq_refl)
    as (x1 & x' & H1 & _ & _ & H4 & H5 & H6 & _).
  exists x1, x'. repeat (split; [assumption |]). exact H6.
Defined.

(** ** Saving and restoring *)

(** Restoring a Tracker from its own state dict, whatever it held before. *)
Lemma tracker_setstate_asdict (x self : Tracker.t) :
  Tracker.__setstate__ (asdict x) self = (x, inr tt).
Proof. destruct x; reflexivity. Qed.

(** A [Progress] restore reads the keys [total] and [current] only. *)
Lemma progress_setstate_entries
    (d : gmap string value) (x self : Progress.t) :
  d !! "total" = Some (asdict (Progress.total x)) →
  d !! "current" = Some (asdict (Progress.current x)) →
  Progress.__setstate__ (VDict d) self = (x, inr tt).
Proof.
  intros Ht Hc. unfold Progress.__setstate__. py_unfold.
  cbn [getitem view update Progress._total Progress._current].
  rewrite Ht, tracker_setstate_asdict, Hc, tracker_setstate_asdict.
  destruct x; reflexivity.
Qed.

Lemma progress_setstate_asdict (x self : Progress.t) :
  Progress.__setstate__ (asdict x) self = (x, inr tt).
Proof. apply progress_setstate_entries; reflexivity. Qed.

Lemma epoch_setstate_entries
    (d : gmap string value) (x self : EpochProgress.t) :
  d !! "total" = Some (asdict (EpochProgress.total x)) →
  d !! "current" = Some (asdict (EpochProgress.current x)) →
  d !! "batch" = Some (asdict (EpochProgress.batch x)) →
  d !! "dataloader_idx" = Some (EpochProgress.dataloader_idx x) →
  EpochProgress.__setstate__ (VDict d) self = (x, inr tt).
Proof.
  intros Ht Hc Hb Hi. unfold EpochProgress.__setstate__. py_unfold.
  cbn [getitem view update EpochProgress._super EpochProgress._batch].
  rewrite (progress_setstate_entries d (EpochProgress.super x) _ Ht Hc).
  rewrite Hb, progress_setstate_asdict, Hi.
  destruct x; reflexivity.
Qed.

Lemma epoch_setstate_asdict (x self : EpochProgress.t) :
  EpochProgress.__setstate__ (asdict x) self = (x, inr tt).
Proof. apply epoch_setstate_entries; reflexivity. Qed.

Lemma optimizer_setstate_asdict (x self : OptimizerProgress.t) :
  OptimizerProgress.__setstate__ (asdict x) self = (x, inr tt).
Proof.
  unfold OptimizerProgress.__setstate__. py_unfold.
  cbn [view update OptimizerProgress._step OptimizerProgress._zero_grad].
  change (getitem (asdict x) "step")
    with (inr (B:=value) (A:=exn) (asdict (OptimizerProgress.step x))).
  change (getitem (asdict x) "zero_grad")
    with (inr (B:=value) (A:=exn) (asdict (OptimizerProgress.zero_grad x))).
  cbv beta iota.
  rewrite !progress_setstate_asdict. destruct x; reflexivity.
Qed.

Lemma optimization_setstate_asdict (x self : OptimizationProgress.t) :
  OptimizationProgress.__setstate__ (asdict x) self = (x, inr tt).
Proof.
  unfold OptimizationProgress.__setstate__. py_unfold.
  cbn [view update OptimizationProgress._optimizer
       OptimizationProgress._scheduler].
  change (getitem (asdict x) "optimizer")
    with (inr (B:=value) (A:=exn) (asdict (OptimizationProgress.optimizer x))).
  change (getitem (asdict x) "scheduler")
    with (inr (B:=value) (A:=exn) (asdict (OptimizationProgress.scheduler x))).
  change (getitem (asdict x) "optimizer_idx")
    with (inr (B:=value) (A:=exn) (OptimizationProgress.optimizer_idx x)).
  cbv beta iota.
  rewrite optimizer_setstate_asdict, progress_setstate_asdict.
  destruct x; reflexivity.
Qed.

Lemma epoch_loop_setstate_asdict (x self : EpochLoopProgress.t) :
  EpochLoopProgress.__setstate__ (asdict x) self = (x, inr tt).
Proof.
  unfold EpochLoopProgress.__setstate__. py_unfold.
  cbn [view update EpochLoopProgress._epoch].
  change (getitem (asdict x) "epoch")
    with (inr (B:=value) (A:=exn) (asdict (EpochLoopProgress.epoch x))).
  cbv beta iota.
  rewrite epoch_setstate_asdict. destruct x; reflexivity.
Qed.

Lemma training_val_loop_setstate_asdict (x self : TrainingValLoopPorgress.t) :
  TrainingValLoopPorgress.__setstate__ (asdict x) self = (x, inr tt).
Proof.
  unfold TrainingValLoopPorgress.__setstate__. py_unfold.
  unfold TrainingValLoopPorgress._epoch, then_.
  cbn [view update TrainingValLoopPorgress._super EpochLoopProgress._epoch].
  change (getitem (asdict x) "epoch")
    with (inr (B:=value) (A:=exn) (asdict (TrainingValLoopPorgress.epoch x))).
  change (getitem (asdict x) "should_check_val")
    with (inr (B:=value) (A:=exn) (TrainingValLoopPorgress.should_check_val x)).
  cbv beta iota.
  rewrite epoch_setstate_asdict. destruct x as [[]]; reflexivity.
Qed.

Lemma training_epoch_setstate_asdict (x self : TrainingEpochProgress.t) :
  TrainingEpochProgress.__setstate__ (asdict x) self = (x, inr tt).
Proof.
  unfold TrainingEpochProgress.__setstate__. py_unfold.
  cbn [view update TrainingEpochProgress._super TrainingEpochProgress._optim
       TrainingEpochProgress._val].
  change (getitem (asdict x) "optim")
    with (inr (B:=value) (A:=exn) (asdict (TrainingEpochProgress.optim x))).
  change (getitem (asdict x) "val")
    with (inr (B:=value) (A:=exn) (asdict (TrainingEpochProgress.val x))).
  cbv beta iota.
  cbn [asdict TrainingEpochProgress.mixin].
  rewrite (epoch_setstate_entries _ (TrainingEpochProgress.super x))
    by reflexivity.
  rewrite optimization_setstate_asdict, training_val_loop_setstate_asdict.
  destruct x; reflexivity.
Qed.

Lemma fit_loop_setstate_asdict (x self : FitLoopProgress.t) :
  FitLoopProgress.__setstate__ (asdict x) self = (x, inr tt).
Proof.
  unfold FitLoopProgress.__setstate__. py_unfold.
  cbn [view update FitLoopProgress._epoch].
  change (getitem (asdict x) "epoch")
    with (inr (B:=value) (A:=exn) (asdict (FitLoopProgress.epoch x))).
  cbv beta iota.
  rewrite training_epoch_setstate_asdict. destruct x; reflexivity.
Qed.

(** C1: for the Tracker and for every composite of the tree, restoring
    from the state dict of [x] into a freshly constructed object returns
    normally and yields [x] itself: every field, enabled or not, and hence
    every derived property ([optimizer_steps], [scheduler_steps],
    [total_epoch_completed], [total_optimizer_step_completed]) is that of
    [x]. *)
Theorem from_state_dict_state_dict :
  (∀ x : Tracker.t, from_state_dict (state_dict x) = inr x)
  ∧ (∀ x : Progress.t, from_state_dict (state_dict x) = inr x)
  ∧ (∀ x : BatchProgress.t, from_state_dict (state_dict x) = inr x)
  ∧ (∀ x : EpochProgress.t, from_state_dict (state_dict x) = inr x)
  ∧ (∀ x : OptimizerProgress.t, from_state_dict (state_dict x) = inr x)
  ∧ (∀ x : OptimizationProgress.t,
        from_state_dict (state_dict x) = inr x
        ∧ sum_map id OptimizationProgress.optimizer_steps
            (from_state_dict (state_dict x))
          = inr (OptimizationProgress.optimizer_steps x)
        ∧ sum_map id OptimizationProgress.scheduler_steps
            (from_state_dict (state_dict x))
          = inr (OptimizationProgress.scheduler_steps x))
  ∧ (∀ x : EpochLoopProgress.t,
        from_state_dict (state_dict x) = inr x
        ∧ sum_map id EpochLoopProgress.total_epoch_completed
            (from_state_dict (state_dict x))
          = inr (EpochLoopProgress.total_epoch_completed x))
  ∧ (∀ x : TrainingValLoopPorgress.t,
        from_state_dict (state_dict x) = inr x
        ∧ sum_map id TrainingValLoopPorgress.total_epoch_completed
            (from_state_dict (state_dict x))
          = inr (TrainingValLoopPorgress.total_epoch_completed x))
  ∧ (∀ x : TrainingEpochProgress.t, from_state_dict (state_dict x) = inr x)
  ∧ (∀ x : FitLoopProgress.t,
        from_state_dict (state_dict x) = inr x
        ∧ sum_map id FitLoopProgress.total_epoch_completed
            (from_state_dict (state_dict x))
          = inr (FitLoopProgress.total_epoch_completed x)
        ∧ sum_map id FitLoopProgress.total_optimizer_step_completed
            (from_state_dict (state_dict x))
          = inr (FitLoopProgress.total_optimizer_step_completed x)).
Proof.
  unfold from_state_dict, state_dict, __getstate__.
  cbn [setstate Tracker.mixin Progress.mixin
       EpochProgress.mixin OptimizerProgress.mixin OptimizationProgress.mixin
       EpochLoopProgress.mixin TrainingValLoopPorgress.mixin
       TrainingEpochProgress.mixin FitLoopProgress.mixin].
  repeat split; intros;
    rewrite ?tracker_setstate_asdict, ?progress_setstate_asdict,
      ?epoch_setstate_asdict, ?optimizer_setstate_asdict,
      ?optimization_setstate_asdict, ?epoch_loop_setstate_asdict,
      ?training_val_loop_setstate_asdict, ?training_epoch_setstate_asdict,
      ?fit_loop_setstate_asdict;
    reflexivity.
Qed.

(** ** Restoring from an incomplete state dict *)

(** On the values of the embedding, whatever a restore raises is a
    [KeyError] or a [TypeError]. *)
Lemma getitem_raises (state : value) (k : string) (e : exn) :
  getitem state k = inl e → malformed_restore e.
Proof.
  destruct state as [| | | d]; cbn; try (intros [= <-]; exact I).
  destruct (d !! k); intros [= <-]; exact I.
Qed.

Lemma tracker_setstate_raises
    (state : value) (self s' : Tracker.t) (e : exn) :
  Tracker.__setstate__ state self = (s', inl e) → malformed_restore e.
Proof. destruct state; cbn; intros [= <- <-] || intros [=]; exact I. Qed.

#[local] Hint Resolve getitem_raises tracker_setstate_raises : restore.

Lemma progress_setstate_raises
    (state : value) (self s' : Progress.t) (e : exn) :
  Progress.__setstate__ state self = (s', inl e) → malformed_restore e.
Proof.
  unfold Progress.__setstate__. py_unfold. intros H. trace_raise H.
Qed.

#[local] Hint Resolve progress_setstate_raises : restore.

Lemma epoch_setstate_raises
    (state : value) (self s' : EpochProgress.t) (e : exn) :
  EpochProgress.__setstate__ state self = (s', inl e) → malformed_restore e.
Proof.
  unfold EpochProgress.__setstate__. py_unfold. intros H. trace_raise H.
Qed.

#[local] Hint Resolve epoch_setstate_raises : restore.

Lemma optimizer_setstate_raises
    (state : value) (self s' : OptimizerProgress.t) (e : exn) :
  OptimizerProgress.__setstate__ state self = (s', inl e) →
  malformed_restore e.
Proof.
  unfold OptimizerProgress.__setstate__. py_unfold. intros H. trace_raise H.
Qed.

#[local] Hint Resolve optimizer_setstate_raises : restore.

Lemma optimization_setstate_raises
    (state : value) (self s' : OptimizationProgress.t) (e : exn) :
  OptimizationProgress.__setstate__ state self = (s', inl e) →
  malformed_restore e.
Proof.
  unfold OptimizationProgress.__setstate__. py_unfold. intros H.
  trace_raise H.
Qed.

#[local] Hint Resolve optimization_setstate_raises : restore.

Lemma epoch_loop_setstate_raises
    (state : value) (self s' : EpochLoopProgress.t) (e : exn) :
  EpochLoopProgress.__setstate__ state self = (s', inl e) →
  malformed_restore e.
Proof.
  unfold EpochLoopProgress.__setstate__. py_unfold. intros H. trace_raise H.
Qed.

#[local] Hint Resolve epoch_loop_setstate_raises : restore.

Lemma training_val_loop_setstate_raises
    (state : value) (self s' : TrainingValLoopPorgress.t) (e : exn) :
  TrainingValLoopPorgress.__setstate__ state self = (s', inl e) →
  malformed_restore e.
Proof.
  unfold TrainingValLoopPorgress.__setstate__. py_unfold. intros H.
  trace_raise H.
Qed.

#[local] Hint Resolve training_val_loop_setstate_raises : restore.

Lemma training_epoch_setstate_raises
    (state : value) (self s' : TrainingEpochProgress.t) (e : exn) :
  TrainingEpochProgress.__setstate__ state self = (s', inl e) →
  malformed_restore e.
Proof.
  unfold TrainingEpochProgress.__setstate__. py_unfold. intros H.
  trace_raise H.
Qed.

#[local] Hint Resolve training_epoch_setstate_raises : restore.

Lemma progress_setstate_missing
    (d : gmap string value) (k : string) (self : Progress.t) :
  k ∈ Progress_keys → d !! k = None →
  fails (Progress.__setstate__ (VDict d)) self.
Proof.
  intros Hk Hd. unfold fails, Progress.__setstate__. py_unfold.
  cbn [getitem]. split_keys Hk; rewrite Hd; run_restore.
Qed.

Lemma epoch_setstate_missing
    (d : gmap string value) (k : string) (self : EpochProgress.t) :
  k ∈ EpochProgress_keys → d !! k = None →
  fails (EpochProgress.__setstate__ (VDict d)) self.
Proof.
  intros Hk Hd. unfold fails, EpochProgress.__setstate__. py_unfold.
  cbn [getitem view EpochProgress._super]. split_keys Hk.
  - sub_restore_fails
      (progress_setstate_missing d "total" (EpochProgress.super self)
         ltac:(set_solver) Hd).
  - sub_restore_fails
      (progress_setstate_missing d "current" (EpochProgress.super self)
         ltac:(set_solver) Hd).
  - rewrite Hd; run_restore.
  - rewrite Hd; run_restore.
Qed.

Lemma optimizer_setstate_missing
    (d : gmap string value) (k : string) (self : OptimizerProgress.t) :
  k ∈ OptimizerProgress_keys → d !! k = None →
  fails (OptimizerProgress.__setstate__ (VDict d)) self.
Proof.
  intros Hk Hd. unfold fails, OptimizerProgress.__setstate__. py_unfold.
  cbn [getitem]. split_keys Hk; rewrite Hd; run_restore.
Qed.

Lemma optimization_setstate_missing
    (d : gmap string value) (k : string) (self : OptimizationProgress.t) :
  k ∈ OptimizationProgress_keys → d !! k = None →
  fails (OptimizationProgress.__setstate__ (VDict d)) self.
Proof.
  intros Hk Hd. unfold fails, OptimizationProgress.__setstate__. py_unfold.
  cbn [getitem]. split_keys Hk; rewrite Hd; run_restore.
Qed.

Lemma epoch_loop_setstate_missing
    (d : gmap string value) (k : string) (self : EpochLoopProgress.t) :
  k ∈ EpochLoopProgress_keys → d !! k = None →
  fails (EpochLoopProgress.__setstate__ (VDict d)) self.
Proof.
  intros Hk Hd. unfold fails, EpochLoopProgress.__setstate__. py_unfold.
  cbn [getitem]. split_keys Hk; rewrite Hd; run_restore.
Qed.

Lemma training_val_loop_setstate_missing
    (d : gmap string value) (k : string) (self : TrainingValLoopPorgress.t) :
  k ∈ TrainingValLoopPorgress_keys → d !! k = None →
  fails (TrainingValLoopPorgress.__setstate__ (VDict d)) self.
Proof.
  intros Hk Hd. unfold fails, TrainingValLoopPorgress.__setstate__.
  py_unfold. cbn [getitem]. split_keys Hk; rewrite Hd; run_restore.
Qed.

Lemma training_epoch_setstate_missing
    (d : gmap string value) (k : string) (self : TrainingEpochProgress.t) :
  k ∈ TrainingEpochProgress_keys → d !! k = None →
  fails (TrainingEpochProgress.__setstate__ (VDict d)) self.
Proof.
  intros Hk Hd. unfold fails, TrainingEpochProgress.__setstate__. py_unfold.
  cbn [getitem view TrainingEpochProgress._super]. split_keys Hk.
  1-4: match type of Hd with
       | _ !! ?k = None =>
           sub_restore_fails
             (epoch_setstate_missing d k (TrainingEpochProgress.super self)
                ltac:(set_solver) Hd)
       end.
  all: rewrite Hd; run_restore.
Qed.

Lemma fit_loop_setstate_missing
    (d : gmap string value) (k : string) (self : FitLoopProgress.t) :
  k ∈ FitLoopProgress_keys → d !! k = None →
  fails (FitLoopProgress.__setstate__ (VDict d)) self.
Proof.
  intros Hk Hd. unfold fails, FitLoopProgress.__setstate__. py_unfold.
  cbn [getitem]. split_keys Hk; rewrite Hd; run_restore.
Qed.

Lemma fails_rejects (T : Type) `{StateDictMixin T} (state : value) :
  (∀ self : T, fails (setstate state) self) → rejects T state.
Proof.
  intros Hfails. split; [exact Hfails |].
  destruct (Hfails cls) as (e & self' & Hraise). exists e.
  unfold from_state_dict. red in Hraise. rewrite Hraise. reflexivity.
Qed.

(** C3, as the code has it: a Tracker state dict without [completed] is
    restored without any error, and the missing stage silently keeps the
    value the fresh Tracker had; a [Progress] whose two entries are empty
    dicts is restored likewise. *)
Lemma restore_accepts_missing_stage :
  from_state_dict
    (VDict {[ "ready" := VInt 3; "started" := VInt 3; "processed" := VInt 3 ]})
  = inr (Tracker.mk (VInt 3) (VInt 3) (VInt 3) (VInt 0))
  ∧ from_state_dict (VDict {[ "total" := VDict ∅; "current" := VDict ∅ ]})
    = inr (Progress.mk (Tracker.mk (VInt 0) (VInt 0) (VInt 0) (VInt 0))
                       (Tracker.mk (VInt 0) (VInt 0) (VInt 0) (VInt 0))).
Proof. split; reflexivity. Qed.

(** C3, amended: for every composite of the tree, a state dict that lacks
    one of the keys the composite's [__setstate__] reads makes the restore
    raise, on every receiver and through [from_state_dict]. A Tracker is
    restored by a plain dict update: every dict is accepted, and a stage the
    dict does not mention keeps its former value. *)
Theorem restore_missing_key (d : gmap string value) :
  (∀ k, k ∈ Progress_keys → d !! k = None → rejects Progress.t (VDict d))
  ∧ (∀ k, k ∈ EpochProgress_keys → d !! k = None →
          rejects EpochProgress.t (VDict d))
  ∧ (∀ k, k ∈ OptimizerProgress_keys → d !! k = None →
          rejects OptimizerProgress.t (VDict d))
  ∧ (∀ k, k ∈ OptimizationProgress_keys → d !! k = None →
          rejects OptimizationProgress.t (VDict d))
  ∧ (∀ k, k ∈ EpochLoopProgress_keys → d !! k = None →
          rejects EpochLoopProgress.t (VDict d))
  ∧ (∀ k, k ∈ TrainingValLoopPorgress_keys → d !! k = None →
          rejects TrainingValLoopPorgress.t (VDict d))
  ∧ (∀ k, k ∈ TrainingEpochProgress_keys → d !! k = None →
          rejects TrainingEpochProgress.t (VDict d))
  ∧ (∀ k, k ∈ FitLoopProgress_keys → d !! k = None →
          rejects FitLoopProgress.t (VDict d))
  ∧ (∀ self : Tracker.t,
        ∃ self', returns (Tracker.__setstate__ (VDict d)) self self'
          ∧ ∀ f, d !! Tracker.name f = None →
                 Tracker.get f self' = Tracker.get f self).
Proof.
  repeat split.
  - intros self. eapply progress_setstate_missing; eassumption.
  - pose proof (fails_rejects Progress.t (VDict d)) as Hr.
    apply Hr. intros self. eapply progress_setstate_missing; eassumption.
  - intros self. eapply epoch_setstate_missing; eassumption.
  - apply (fails_rejects EpochProgress.t).
    intros self. eapply epoch_setstate_missing; eassumption.
  - intros self. eapply optimizer_setstate_missing; eassumption.
  - apply (fails_rejects OptimizerProgress.t).
    intros self. eapply optimizer_setstate_missing; eassumption.
  - intros self. eapply optimization_setstate_missing; eassumption.
  - apply (fails_rejects OptimizationProgress.t).
    intros self. eapply optimization_setstate_missing; eassumption.
  - intros self. eapply epoch_loop_setstate_missing; eassumption.
  - apply (fails_rejects EpochLoopProgress.t).
    intros self. eapply epoch_loop_setstate_missing; eassumption.
  - intros self. eapply training_val_loop_setstate_missing; eassumption.
  - apply (fails_rejects TrainingValLoopPorgress.t).
    intros self. eapply training_val_loop_setstate_missing; eassumption.
  - intros self. eapply training_epoch_setstate_missing; eassumption.
  - apply (fails_rejects TrainingEpochProgress.t).
    intros self. eapply training_epoch_setstate_missing; eassumption.
  - intros self. eapply fit_loop_setstate_missing; eassumption.
  - apply (fails_rejects FitLoopProgress.t).
    intros self. eapply fit_loop_setstate_missing; eassumption.
  - intros self. eexists. split; [reflexivity |].
    intros f Hf. destruct f; cbn in *; rewrite Hf; reflexivity.
Qed.

Lemma restore_missing_key_witness :
  rejects Progress.t (VDict {[ "total" := VDict ∅ ]})
  ∧ rejects TrainingEpochProgress.t
      (VDict {[ "total" := VDict ∅; "current" := VDict ∅;
                "batch" := VDict {[ "total" := VDict ∅;
                                    "current" := VDict ∅ ]};
                "dataloader_idx" := VInt 0;
                "optim" :=
                  VDict {[ "optimizer" :=
                             VDict {[ "step" :=
                                        VDict {[ "total" := VDict ∅;
                                                 "current" := VDict ∅ ]};
                                      "zero_grad" :=
                                        VDict {[ "total" := VDict ∅;
                                                 "current" := VDict ∅ ]} ]};
                           "scheduler" :=
                             VDict {[ "total" := VDict ∅;
                                      "current" := VDict ∅ ]};
                           "optimizer_idx" := VInt 0 ]} ]}).
Proof.
  split.
  - exact (proj1 (restore_missing_key {[ "total" := VDict ∅ ]})
             "current"
             (list_elem_of_further _ _ _ (list_elem_of_here _ _))
             eq_refl).
  - refine (proj1 (proj2 (proj2 (proj2 (proj2 (proj2 (proj2
              (restore_missing_key
                 {[ "total" := VDict ∅; "current" := VDict ∅;
                    "batch" := VDict {[ "total" := VDict ∅;
                                        "current" := VDict ∅ ]};
                    "dataloader_idx" := VInt 0;
                    "optim" :=
                      VDict {[ "optimizer" :=
                                 VDict {[ "step" :=
                                            VDict {[ "total" := VDict ∅;
                                                     "current" := VDict ∅ ]};
                                          "zero_grad" :=
                                            VDict {[ "total" := VDict ∅;
                                                     "current" := VDict ∅ ]} ]};
                               "scheduler" :=
                                 VDict {[ "total" := VDict ∅;
                                          "current" := VDict ∅ ]};
                               "optimizer_idx" := VInt 0 ]} ]})))))))
              "val" _ eq_refl).
    unfold TrainingEpochProgress_keys. repeat constructor.
Defined.

(** ** The partition of a Progress *)

Lemma is_None_zero_enabled (v : value) :
  is_None (zero_enabled v) = is_None v.
Proof. destruct v; reflexivity. Qed.

Lemma partition_zeroed (t : Tracker.t) : partition (zeroed t) = partition t.
Proof.
  unfold partition, zeroed, Tracker.disabled. cbn.
  rewrite !is_None_zero_enabled. reflexivity.
Qed.

Lemma partitions_of_current_zeroed (p : Progress.t) :
  partitions_of (current_zeroed p) = partitions_of p.
Proof.
  unfold partitions_of, current_zeroed.
  cbn [Progress.total Progress.current]. rewrite partition_zeroed.
  reflexivity.
Qed.

Lemma partition_iadd1 (f : Tracker.field) (t : Tracker.t) :
  partition (fst (Tracker.iadd1 f t)) = partition t.
Proof.
  unfold Tracker.iadd1. py_unfold.
  destruct (add1 (Tracker.get f t)) as [e | v] eqn:Hadd; [reflexivity |].
  rewrite setattr_stage.
  destruct (Tracker.disabled f t) eqn:Hdis; [reflexivity |].
  assert (Hv : is_None v = false).
  { destruct (Tracker.get f t); cbn in Hadd; congruence || (inversion Hadd; reflexivity). }
  unfold Tracker.disabled in Hdis.
  destruct f, t; cbn in *; unfold partition, Tracker.disabled; cbn;
    rewrite Hv, <- Hdis; reflexivity.
Qed.

Lemma partitions_of_increment (f : Tracker.field) (p : Progress.t) :
  partitions_of (fst (Progress.increment f p)) = partitions_of p.
Proof.
  assert (Hstep :
    partitions_of
      (fst ((on Progress._total (Tracker.iadd1 f);;
             on Progress._current (Tracker.iadd1 f)) p)) = partitions_of p).
  { py_unfold. cbn [view update Progress._total Progress._current].
    pose proof (partition_iadd1 f (Progress.total p)) as Ht.
    destruct (Tracker.iadd1 f (Progress.total p)) as [t' [e | []]];
      cbn [fst] in Ht.
    - unfold partitions_of. cbn [fst Progress.total Progress.current].
      rewrite Ht. reflexivity.
    - cbn [Progress.current Progress.total].
      pose proof (partition_iadd1 f (Progress.current p)) as Hc.
      destruct (Tracker.iadd1 f (Progress.current p)) as [c' [e | []]];
        cbn [fst] in Hc; unfold partitions_of;
        cbn [fst Progress.total Progress.current]; rewrite Ht, Hc;
        reflexivity. }
  destruct f; cbn [Progress.increment];
    unfold Progress.increment_ready, Progress.increment_started,
      Progress.increment_processed, Progress.increment_completed;
    unfold mbind at 1; unfold M_bind at 1; unfold this at 1;
    match goal with
    | |- context [if ?c then _ else _] => destruct c
    end; solve [reflexivity | exact Hstep].
Qed.

Lemma same_partition_partitions_of (p q : Progress.t) :
  partitions_of q = partitions_of p → same_partition p → same_partition q.
Proof.
  unfold partitions_of, same_partition. intros H Hp.
  assert (Ht : partition (Progress.total q) = partition (Progress.total p))
    by congruence.
  assert (Hc : partition (Progress.current q)
               = partition (Progress.current p)) by congruence.
  congruence.
Qed.

Lemma same_partition_transfer (l l' : list Progress.t) :
  partitions_of <$> l' = partitions_of <$> l →
  Forall same_partition l → Forall same_partition l'.
Proof.
  revert l'. induction l as [| p l IH]; intros [| q l'] Heq Hl;
    try discriminate; [constructor |].
  rewrite !fmap_cons in Heq.
  assert (Hq : partitions_of q = partitions_of p) by congruence.
  assert (Hrest : partitions_of <$> l' = partitions_of <$> l) by congruence.
  inversion Hl; subst.
  constructor.
  - eapply same_partition_partitions_of; eassumption.
  - apply IH; assumption.
Qed.

Lemma partition_new_shared (kw : Tracker.kwargs) :
  same_partition (Progress.from_defaults kw).
Proof. reflexivity. Qed.

Lemma partition_dict_update (d : gmap string value) (t : Tracker.t) :
  partition (Tracker.dict_update d t) =
  zip_with (λ o b, default b o) (dict_partition d) (partition t).
Proof.
  unfold partition, dict_partition, Tracker.dict_update, Tracker.disabled.
  cbn. destruct (d !! "ready"), (d !! "started"), (d !! "processed"),
    (d !! "completed"); reflexivity.
Qed.

Lemma epoch_reset_on_epoch_partitions (e : EpochProgress.t) :
  partitions_of <$> progresses (fst (EpochProgress.reset_on_epoch e))
  = partitions_of <$> progresses e.
Proof.
  rewrite epoch_reset_on_epoch_eq. cbn [fst].
  unfold progresses, EpochProgress_progresses.
  cbn [EpochProgress.super EpochProgress.batch].
  rewrite !fmap_cons, partitions_of_current_zeroed. reflexivity.
Qed.

Lemma optimizer_reset_on_epoch_partitions (o : OptimizerProgress.t) :
  partitions_of <$> progresses (fst (OptimizerProgress.reset_on_epoch o))
  = partitions_of <$> progresses o.
Proof.
  rewrite optimizer_reset_on_epoch_eq. cbn [fst].
  unfold progresses, OptimizerProgress_progresses.
  cbn [OptimizerProgress.step OptimizerProgress.zero_grad].
  rewrite !fmap_cons, !partitions_of_current_zeroed. reflexivity.
Qed.

Lemma optimization_reset_on_epoch_partitions (o : OptimizationProgress.t) :
  partitions_of <$> progresses (fst (OptimizationProgress.reset_on_epoch o))
  = partitions_of <$> progresses o.
Proof.
  rewrite optimization_reset_on_epoch_eq. cbn [fst].
  unfold progresses, OptimizationProgress_progresses, progresses,
    OptimizerProgress_progresses.
  cbn [OptimizationProgress.optimizer OptimizationProgress.scheduler
       OptimizerProgress.step OptimizerProgress.zero_grad app].
  rewrite !fmap_cons, !partitions_of_current_zeroed. reflexivity.
Qed.

Lemma epoch_loop_reset_on_epoch_partitions (x : EpochLoopProgress.t) :
  partitions_of <$> progresses (fst (EpochLoopProgress.reset_on_epoch x))
  = partitions_of <$> progresses x.
Proof.
  rewrite epoch_loop_reset_on_epoch_eq. cbn [fst].
  unfold progresses, EpochLoopProgress_progresses, progresses,
    EpochProgress_progresses.
  cbn [EpochLoopProgress.epoch EpochProgress.super EpochProgress.batch].
  rewrite !fmap_cons, !partitions_of_current_zeroed. reflexivity.
Qed.

Lemma fit_reset_on_epoch_partitions (x : FitLoopProgress.t) :
  partitions_of <$> progresses (fst (FitLoopProgress.reset_on_epoch x))
  = partitions_of <$> progresses x.
Proof.
  rewrite fit_reset_on_epoch_eq. cbn [fst].
  destruct x as [[[sup idx bat] [oidx [stp zg] sch] v]].
  unfold progresses, FitLoopProgress_progresses, progresses,
    TrainingEpochProgress_progresses, progresses, EpochProgress_progresses,
    OptimizationProgress_progresses, progresses,
    OptimizerProgress_progresses.
  cbn -[partitions_of current_zeroed].
  rewrite !partitions_of_current_zeroed. reflexivity.
Qed.

Lemma epoch_increment_completed_partitions (e : EpochProgress.t) :
  partitions_of <$> progresses (fst (EpochProgress.increment_completed e))
  = partitions_of <$> progresses e.
Proof.
  unfold EpochProgress.increment_completed, on.
  cbn [view update EpochProgress._super].
  change Progress.increment_completed
    with (Progress.increment Tracker.Completed).
  pose proof (partitions_of_increment Tracker.Completed (EpochProgress.super e))
    as H.
  destruct (Progress.increment Tracker.Completed (EpochProgress.super e))
    as [p' r]. cbn [fst] in *.
  unfold progresses, EpochProgress_progresses.
  cbn [EpochProgress.super EpochProgress.batch].
  rewrite !fmap_cons, H. reflexivity.
Qed.

Lemma epoch_loop_increment_epoch_completed_partitions
    (x : EpochLoopProgress.t) :
  partitions_of
    <$> progresses (fst (EpochLoopProgress.increment_epoch_completed x))
  = partitions_of <$> progresses x.
Proof.
  unfold EpochLoopProgress.increment_epoch_completed, mbind, M_bind.
  unfold on at 1. cbn [view update EpochLoopProgress._epoch].
  pose proof (epoch_increment_completed_partitions (EpochLoopProgress.epoch x))
    as H.
  destruct (EpochProgress.increment_completed (EpochLoopProgress.epoch x))
    as [e' [err | []]]; cbn [fst] in H.
  - exact H.
  - rewrite epoch_loop_reset_on_epoch_partitions. exact H.
Qed.

Lemma fit_increment_epoch_completed_partitions (x : FitLoopProgress.t) :
  partitions_of
    <$> progresses (fst (FitLoopProgress.increment_epoch_completed x))
  = partitions_of <$> progresses x.
Proof.
  unfold FitLoopProgress.increment_epoch_completed, mbind, M_bind.
  unfold TrainingEpochProgress.increment_completed. unfold on at 1 2.
  cbn [view update FitLoopProgress._epoch TrainingEpochProgress._super].
  pose proof (epoch_increment_completed_partitions
                (TrainingEpochProgress.super (FitLoopProgress.epoch x))) as H.
  destruct (EpochProgress.increment_completed
              (TrainingEpochProgress.super (FitLoopProgress.epoch x)))
    as [e' [err | []]]; cbn [fst] in H.
  - destruct x as [[sup o v]].
    cbn -[partitions_of] in *. congruence.
  - rewrite fit_reset_on_epoch_partitions.
    destruct x as [[sup o v]].
    cbn -[partitions_of] in *. congruence.
Qed.

Lemma progress_setstate_partition
    (p : Progress.t) (d dt dc : gmap string value) :
  same_partition p →
  d !! "total" = Some (VDict dt) →
  d !! "current" = Some (VDict dc) →
  dict_partition dt = dict_partition dc →
  ∃ p', returns (Progress.__setstate__ (VDict d)) p p' ∧ same_partition p'.
Proof.
  intros Hp Ht Hc Hd. eexists. split.
  - unfold Progress.__setstate__. py_unfold.
    cbn [getitem view update Progress._total Progress._current].
    rewrite Ht, Hc. reflexivity.
  - unfold same_partition in *. cbn [Progress.total Progress.current].
    rewrite !partition_dict_update, Hd, Hp. reflexivity.
Qed.

(** [reset_on_restart] keeps the partition of a Tracker in which
    [processed] or [completed] is enabled, which is the case in every
    Tracker that the factories of the tree configure. *)
Lemma partition_reset_on_restart (t : Tracker.t) :
  Tracker.disabled Tracker.Processed t = false
  ∨ Tracker.disabled Tracker.Completed t = false →
  partition (fst (Tracker.reset_on_restart t)) = partition t.
Proof.
  rewrite reset_on_restart_eq. cbn [fst].
  unfold partition, carry_enabled, carried_forward, Tracker.disabled.
  destruct t as [r s p c]. cbn.
  intros [H | H]; rewrite ?H;
    destruct (is_None r), (is_None s), (is_None p) eqn:Hp, (is_None c) eqn:Hc;
    cbn; rewrite ?Hp, ?Hc; try reflexivity; discriminate.
Qed.

(** With neither of the two enabled there is nothing to carry forward, and
    the fields that were enabled end up disabled. *)
Example reset_on_restart_without_carry :
  Tracker.reset_on_restart (Tracker.mk (VInt 2) (VInt 1) VNone VNone)
  = (Tracker.mk VNone VNone VNone VNone, inr tt).
Proof. reflexivity. Qed.

(** C9, as the code has it: two operations of a Tracker take the two
    partitions of a Progress apart. On
    [Progress.from_defaults(processed=None, completed=None)],
    [total.reset_on_restart()] has nothing to carry forward and leaves
    [total] with all four stages disabled while [current] keeps two enabled;
    on a default [Progress], the assignment [total.completed = None] passes
    the guard and disables [completed] in [total] only. *)
Lemma partition_parted_by_restart_and_write :
  (let p := Progress.from_defaults
              (Tracker.Kwargs None None (Some VNone) (Some VNone)) in
   same_partition p
   ∧ ∃ p', returns (on Progress._total Tracker.reset_on_restart) p p'
       ∧ partition (Progress.total p') = [true; true; true; true]
       ∧ partition (Progress.current p') = [false; false; true; true]
       ∧ ¬ same_partition p')
  ∧ (let q : Progress.t := cls in
     same_partition q
     ∧ ∃ q', returns (on Progress._total
                         (Tracker.__setattr__ "completed" VNone)) q q'
         ∧ partition (Progress.total q') = [false; false; false; true]
         ∧ partition (Progress.current q') = [false; false; false; false]
         ∧ ¬ same_partition q').
Proof.
  split; (split; [reflexivity |]); eexists;
    (split; [reflexivity |]); (split; [reflexivity |]);
    (split; [reflexivity |]); unfold same_partition; discriminate.
Qed.

(** C9, amended: the two Trackers of a Progress have the same
    enabled/disabled partition when the Progress comes from [from_defaults]
    or from the default constructors of the tree, and every operation below
    keeps it so, whether the operation returns or raises: the four
    increments, [reset] on either Tracker, each [reset_on_epoch] and
    [increment_epoch_completed] of the composites, and a restore from a
    state dict whose [total] and [current] entries induce the same
    partition. *)
Theorem partition_shared_and_preserved :
  (∀ kw : Tracker.kwargs, same_partition (Progress.from_defaults kw))
  ∧ same_partition cls
  ∧ Forall same_partition (progresses (cls : FitLoopProgress.t))
  ∧ (∀ (f : Tracker.field) (p : Progress.t),
        same_partition p → same_partition (fst (Progress.increment f p)))
  ∧ (∀ p : Progress.t,
        same_partition p →
        same_partition (fst (on Progress._total Tracker.reset p))
        ∧ same_partition (fst (on Progress._current Tracker.reset p)))
  ∧ (∀ e : EpochProgress.t,
        Forall same_partition (progresses e) →
        Forall same_partition
          (progresses (fst (EpochProgress.reset_on_epoch e))))
  ∧ (∀ o : OptimizerProgress.t,
        Forall same_partition (progresses o) →
        Forall same_partition
          (progresses (fst (OptimizerProgress.reset_on_epoch o))))
  ∧ (∀ o : OptimizationProgress.t,
        Forall same_partition (progresses o) →
        Forall same_partition
          (progresses (fst (OptimizationProgress.reset_on_epoch o))))
  ∧ (∀ x : EpochLoopProgress.t,
        Forall same_partition (progresses x) →
        Forall same_partition
          (progresses (fst (EpochLoopProgress.reset_on_epoch x)))
        ∧ Forall same_partition
            (progresses (fst (EpochLoopProgress.increment_epoch_completed x))))
  ∧ (∀ x : TrainingValLoopPorgress.t,
        Forall same_partition (progresses x) →
        Forall same_partition
          (progresses (fst (TrainingValLoopPorgress.reset_on_epoch x)))
        ∧ Forall same_partition
            (progresses
               (fst (TrainingValLoopPorgress.increment_epoch_completed x))))
  ∧ (∀ x : FitLoopProgress.t,
        Forall same_partition (progresses x) →
        Forall same_partition
          (progresses (fst (FitLoopProgress.reset_on_epoch x)))
        ∧ Forall same_partition
            (progresses (fst (FitLoopProgress.increment_epoch_completed x))))
  ∧ (∀ (p : Progress.t) (d dt dc : gmap string value),
        same_partition p →
        d !! "total" = Some (VDict dt) →
        d !! "current" = Some (VDict dc) →
        dict_partition dt = dict_partition dc →
        ∃ p', returns (Progress.__setstate__ (VDict d)) p p'
          ∧ same_partition p')
  ∧ (∀ d dt dc : gmap string value,
        d !! "total" = Some (VDict dt) →
        d !! "current" = Some (VDict dc) →
        dict_partition dt = dict_partition dc →
        ∃ p', from_state_dict (VDict d) = inr p' ∧ same_partition p').
Proof.
  split; [exact partition_new_shared |].
  split; [reflexivity |].
  split; [repeat constructor |].
  split.
  { intros f p. apply same_partition_partitions_of, partitions_of_increment. }
  split.
  { intros p Hp. unfold on.
    cbn [view update Progress._total Progress._current].
    rewrite !reset_eq. cbn [fst]. unfold same_partition in *.
    cbn [Progress.total Progress.current]. rewrite !partition_zeroed.
    split; exact Hp. }
  split.
  { intros e. apply same_partition_transfer, epoch_reset_on_epoch_partitions. }
  split.
  { intros o.
    apply same_partition_transfer, optimizer_reset_on_epoch_partitions. }
  split.
  { intros o.
    apply same_partition_transfer, optimization_reset_on_epoch_partitions. }
  split.
  { intros x Hx. split; revert Hx; apply same_partition_transfer.
    - apply epoch_loop_reset_on_epoch_partitions.
    - apply epoch_loop_increment_epoch_completed_partitions. }
  split.
  { intros x Hx.
    unfold TrainingValLoopPorgress.reset_on_epoch,
      TrainingValLoopPorgress.increment_epoch_completed, on.
    cbn [view update TrainingValLoopPorgress._super].
    pose proof (epoch_loop_reset_on_epoch_partitions
                  (TrainingValLoopPorgress.super x)) as Hr.
    pose proof (epoch_loop_increment_epoch_completed_partitions
                  (TrainingValLoopPorgress.super x)) as Hi.
    destruct (EpochLoopProgress.reset_on_epoch
                (TrainingValLoopPorgress.super x)) as [s1 r1].
    destruct (EpochLoopProgress.increment_epoch_completed
                (TrainingValLoopPorgress.super x)) as [s2 r2].
    split; revert Hx; apply same_partition_transfer; assumption. }
  split.
  { intros x Hx. split; revert Hx; apply same_partition_transfer.
    - apply fit_reset_on_epoch_partitions.
    - apply fit_increment_epoch_completed_partitions. }
  split; [exact progress_setstate_partition |].
  intros d dt dc Ht Hc Hd.
  destruct (progress_setstate_partition (@cls _ Progress.mixin) d dt dc
              eq_refl Ht Hc Hd) as (p' & Hret & Hp').
  exists p'. split; [| exact Hp'].
  unfold from_state_dict. cbn [setstate Progress.mixin].
  red in Hret. rewrite Hret. reflexivity.
Qed.

Lemma partition_shared_and_preserved_witness :
  same_partition
    (fst (Progress.increment_completed
            (Progress.from_defaults OptimizationProgress.factory_kwargs)))
  ∧ ∃ p',
      returns
        (Progress.__setstate__
           (VDict {[ "total" := VDict {[ "processed" := VNone ]};
                     "current" := VDict {[ "processed" := VNone ]} ]}))
        (Progress.from_defaults Tracker.no_kwargs) p'
      ∧ same_partition p'.
Proof.
  destruct partition_shared_and_preserved
    as (_ & _ & _ & Hinc & _ & _ & _ & _ & _ & _ & _ & Hrestore & _).
  split.
  - exact (Hinc Tracker.Completed
             (Progress.from_defaults OptimizationProgress.factory_kwargs)
             eq_refl).
  - exact (Hrestore (Progress.from_defaults Tracker.no_kwargs)
             {[ "total" := VDict {[ "processed" := VNone ]};
                "current" := VDict {[ "processed" := VNone ]} ]}
             {[ "processed" := VNone ]} {[ "processed" := VNone ]}
             eq_refl eq_refl eq_refl eq_refl).
Defined.

(** * Further properties *)

(** ** Trackers *)

Lemma get_set_other (f g : Tracker.field) (v : value) (t : Tracker.t) :
  f ≠ g → Tracker.get g (Tracker.set f v t) = Tracker.get g t.
Proof. destruct f, g; intros H; try reflexivity; contradiction. Qed.

Lemma set_comm (f g : Tracker.field) (v w : value) (t : Tracker.t) :
  f ≠ g →
  Tracker.set g w (Tracker.set f v t) = Tracker.set f v (Tracker.set g w t).
Proof. destruct f, g; intros H; try reflexivity; contradiction. Qed.

Lemma zero_enabled_idem (v : value) :
  zero_enabled (zero_enabled v) = zero_enabled v.
Proof. destruct v; reflexivity. Qed.

Lemma zeroed_idem (t : Tracker.t) : zeroed (zeroed t) = zeroed t.
Proof.
  unfold zeroed. cbn [Tracker.ready Tracker.started Tracker.processed
                      Tracker.completed].
  rewrite !zero_enabled_idem. reflexivity.
Qed.

(** X1: [reset] returns normally on every Tracker; each field that held
    something becomes 0 and each field that held [None] keeps it, so the
    partition is unchanged; a second [reset] changes nothing. *)
Theorem reset_zeroes_enabled_fields (t : Tracker.t) :
  ∃ t', returns Tracker.reset t t'
    ∧ (∀ f, Tracker.get f t' = zero_enabled (Tracker.get f t))
    ∧ partition t' = partition t
    ∧ returns Tracker.reset t' t'.
Proof.
  exists (zeroed t). unfold returns. rewrite !reset_eq, zeroed_idem.
  repeat split; [intros f; apply get_zeroed | apply partition_zeroed].
Qed.

(** X2: [reset_on_restart] is idempotent: on the Tracker it leaves behind,
    a second call returns normally and changes nothing. *)
Theorem reset_on_restart_idempotent (t : Tracker.t) :
  ∃ t', returns Tracker.reset_on_restart t t'
    ∧ returns Tracker.reset_on_restart t' t'.
Proof.
  eexists. split; [apply reset_on_restart_eq |].
  unfold returns. rewrite reset_on_restart_eq.
  destruct t as [r s p c]; destruct r, s, p, c; reflexivity.
Qed.

(** X3: [reset_on_restart] keeps the partition of a Tracker in which
    [processed] or [completed] is enabled; when both are disabled there is
    nothing to carry forward and the call leaves every field at [None], the
    enabled ones included. *)
Theorem reset_on_restart_partition (t : Tracker.t) :
  (Tracker.disabled Tracker.Processed t = false
   ∨ Tracker.disabled Tracker.Completed t = false →
   partition (fst (Tracker.reset_on_restart t)) = partition t)
  ∧ (Tracker.disabled Tracker.Processed t = true →
     Tracker.disabled Tracker.Completed t = true →
     returns Tracker.reset_on_restart t
             (Tracker.mk VNone VNone VNone VNone)).
Proof.
  split; [apply partition_reset_on_restart |].
  unfold returns, Tracker.disabled.
  destruct t as [r s p c]. cbn [Tracker.get]. intros Hp Hc.
  destruct p; try discriminate Hp. destruct c; try discriminate Hc.
  destruct r, s; reflexivity.
Qed.

Lemma reset_on_restart_partition_witness :
  partition (fst (Tracker.reset_on_restart
                    (Tracker.mk (VInt 7) (VInt 6) VNone (VInt 5))))
  = [false; false; true; false]
  ∧ returns Tracker.reset_on_restart
            (Tracker.mk (VInt 7) VNone VNone VNone)
            (Tracker.mk VNone VNone VNone VNone).
Proof.
  split.
  - exact (proj1 (reset_on_restart_partition
                    (Tracker.mk (VInt 7) (VInt 6) VNone (VInt 5)))
             (or_intror eq_refl)).
  - exact (proj2 (reset_on_restart_partition
                    (Tracker.mk (VInt 7) VNone VNone VNone))
             eq_refl eq_refl).
Defined.

(** X4: the constructor never trips the guard, whatever the keywords,
    [None] included: it returns the Tracker that holds each keyword passed
    and 0 for the others. A stage constructed with [None] is disabled from
    then on: every later assignment to it raises. *)
Theorem constructor_accepts_None (kw : Tracker.kwargs) :
  returns (Tracker.__init__ kw) Tracker.class_attrs (Tracker.new kw)
  ∧ (∀ f, Tracker.get f (Tracker.new kw) = default (VInt 0) (kw_get f kw))
  ∧ (∀ f v, kw_get f kw = Some VNone →
            raises (Tracker.__setattr__ (Tracker.name f) v) (Tracker.new kw)
                   (AttributeError (Tracker.name f)) (Tracker.new kw)).
Proof.
  split; [reflexivity |]. split; [intros []; reflexivity |].
  intros f v Hkw. unfold raises. rewrite setattr_stage.
  replace (Tracker.disabled f (Tracker.new kw)) with true; [reflexivity |].
  unfold Tracker.disabled.
  destruct kw as [kr ks kp kc], f; cbn in Hkw; subst; reflexivity.
Qed.

Lemma constructor_accepts_None_witness :
  raises (Tracker.__setattr__ "started" (VInt 1))
         (Tracker.new OptimizationProgress.factory_kwargs)
         (AttributeError "started")
         (Tracker.new OptimizationProgress.factory_kwargs).
Proof.
  exact (proj2 (proj2 (constructor_accepts_None
                         OptimizationProgress.factory_kwargs))
           Tracker.Started (VInt 1) eq_refl).
Defined.

(** ** Counters in step *)

Lemma typed_field (p : Progress.t) (f : Tracker.field) :
  typed p →
  (Tracker.get f (Progress.total p) = VNone
   ∨ ∃ a, Tracker.get f (Progress.total p) = VInt a)
  ∧ (Tracker.get f (Progress.current p) = VNone
     ∨ ∃ b, Tracker.get f (Progress.current p) = VInt b).
Proof.
  intros H. destruct (H f) as [Ht Hc].
  split.
  - destruct (Tracker.get f (Progress.total p)); try discriminate; eauto.
  - destruct (Tracker.get f (Progress.current p)); try discriminate; eauto.
Qed.

Lemma ordered_typed (p : Progress.t) : ordered p → typed p.
Proof.
  intros H f. specialize (H f).
  destruct (Tracker.get f (Progress.total p)),
    (Tracker.get f (Progress.current p)); cbn in *; tauto.
Qed.

(** On counters that hold [None] or integers an increment never raises. *)
Lemma increment_typed (f : Tracker.field) (p : Progress.t) :
  typed p → Progress.increment f p = (advanced f p, inr tt).
Proof.
  intros H. destruct (typed_field p f H) as [[Ht | [a Ht]] [Hc | [b Hc]]];
    unfold advanced; rewrite Ht, ?Hc.
  - apply increment_disabled. left. unfold Tracker.disabled. rewrite Ht; auto.
  - apply increment_disabled. left. unfold Tracker.disabled. rewrite Ht; auto.
  - apply increment_disabled. right. unfold Tracker.disabled. rewrite Hc; auto.
  - apply increment_enabled; assumption.
Qed.

Lemma advanced_get_other (f g : Tracker.field) (p : Progress.t) :
  f ≠ g →
  Tracker.get g (Progress.total (advanced f p))
  = Tracker.get g (Progress.total p)
  ∧ Tracker.get g (Progress.current (advanced f p))
    = Tracker.get g (Progress.current p).
Proof.
  intros Hne. unfold advanced.
  destruct (Tracker.get f (Progress.total p)); try (split; reflexivity).
  destruct (Tracker.get f (Progress.current p)); try (split; reflexivity).
  cbn [Progress.total Progress.current].
  split; apply get_set_other; assumption.
Qed.

Lemma typed_advanced (f : Tracker.field) (p : Progress.t) :
  typed p → typed (advanced f p).
Proof.
  intros H g. unfold advanced.
  destruct (Tracker.get f (Progress.total p)) eqn:Ht; try apply H.
  destruct (Tracker.get f (Progress.current p)) eqn:Hc; try apply H.
  cbn [Progress.total Progress.current].
  destruct f, g; cbn;
    first [ split; reflexivity
          | apply (H Tracker.Ready) | apply (H Tracker.Started)
          | apply (H Tracker.Processed) | apply (H Tracker.Completed) ].
Qed.

Lemma ordered_advanced (f : Tracker.field) (p : Progress.t) :
  ordered p → ordered (advanced f p).
Proof.
  intros H g. unfold advanced.
  pose proof (H f) as Hf.
  destruct (Tracker.get f (Progress.total p)) eqn:Ht; try apply H.
  destruct (Tracker.get f (Progress.current p)) eqn:Hc; try apply H.
  cbn [Progress.total Progress.current]. cbn in Hf.
  destruct f, g; cbn;
    first [ lia
          | apply (H Tracker.Ready) | apply (H Tracker.Started)
          | apply (H Tracker.Processed) | apply (H Tracker.Completed) ].
Qed.

Lemma gap_advanced (f g : Tracker.field) (p : Progress.t) :
  gap (Tracker.get g (Progress.total (advanced f p)))
      (Tracker.get g (Progress.current (advanced f p)))
  = gap (Tracker.get g (Progress.total p))
        (Tracker.get g (Progress.current p)).
Proof.
  unfold advanced.
  destruct (Tracker.get f (Progress.total p)) eqn:Ht; try reflexivity.
  destruct (Tracker.get f (Progress.current p)) eqn:Hc; try reflexivity.
  cbn [Progress.total Progress.current].
  destruct f, g; cbn in *; rewrite ?Ht, ?Hc; cbn; try reflexivity;
    f_equal; lia.
Qed.

Lemma advanced_comm (f g : Tracker.field) (p : Progress.t) :
  advanced g (advanced f p) = advanced f (advanced g p).
Proof.
  destruct p as [[r s pr c] [r' s' pr' c']].
  destruct f, g; try reflexivity; unfold advanced; cbn;
    repeat match goal with
      | |- context [match ?v with _ => _ end] => is_var v; destruct v
      end; reflexivity.
Qed.

(** X5: on a Progress whose stages are in step (both counters [None], or
    integers with [0 ≤ current ≤ total]), any number of calls of an
    increment returns normally and leaves the stages in step; the lead of
    [total] over [current] is the same in every stage as before. *)
Theorem increments_keep_counters_in_step
    (f : Tracker.field) (n : nat) (p : Progress.t) :
  ordered p →
  ∃ p', returns (repeat_call n (Progress.increment f)) p p'
    ∧ ordered p'
    ∧ ∀ g, gap (Tracker.get g (Progress.total p'))
               (Tracker.get g (Progress.current p'))
           = gap (Tracker.get g (Progress.total p))
                 (Tracker.get g (Progress.current p)).
Proof.
  revert p. induction n as [| n IH]; intros p Hp.
  - exists p. repeat split; assumption.
  - destruct (IH (advanced f p) (ordered_advanced f p Hp))
      as (p' & Hret & Hord & Hgap).
    exists p'. split; [| split; [exact Hord |]].
    + unfold returns in *.
      rewrite (repeat_call_succ n _ p (advanced f p)); [exact Hret |].
      apply increment_typed, ordered_typed, Hp.
    + intros g. rewrite Hgap. apply gap_advanced.
Qed.

Lemma increments_keep_counters_in_step_witness :
  ∃ p', returns (repeat_call 2 Progress.increment_ready)
                (Progress.mk (Tracker.mk (VInt 5) VNone VNone (VInt 4))
                             (Tracker.mk (VInt 1) VNone VNone (VInt 0))) p'
    ∧ ordered p'.
Proof.
  destruct (increments_keep_counters_in_step Tracker.Ready 2
              (Progress.mk (Tracker.mk (VInt 5) VNone VNone (VInt 4))
                           (Tracker.mk (VInt 1) VNone VNone (VInt 0))))
    as (p' & Hret & Hord & _).
  - intros []; cbn; first [lia | exact I].
  - exists p'. split; assumption.
Defined.

(** X6: on a Progress whose counters hold [None] or integers, the
    increments of two stages can be called in either order: both orders
    return normally and leave the same Progress. *)
Theorem increments_commute (f g : Tracker.field) (p : Progress.t) :
  typed p →
  ∃ p', returns (Progress.increment f;; Progress.increment g) p p'
    ∧ returns (Progress.increment g;; Progress.increment f) p p'.
Proof.
  intros Hp. exists (advanced g (advanced f p)).
  unfold returns, mbind, M_bind.
  rewrite (increment_typed f p Hp), (increment_typed g p Hp).
  rewrite (increment_typed g _ (typed_advanced f p Hp)).
  rewrite (increment_typed f _ (typed_advanced g p Hp)).
  split; [reflexivity |]. rewrite advanced_comm. reflexivity.
Qed.

Lemma increments_commute_witness :
  ∃ p', returns (Progress.increment_started;; Progress.increment_completed)
                (Progress.mk (Tracker.mk (VInt 3) (VInt 3) VNone (VInt 2))
                             (Tracker.mk (VInt 1) (VInt 1) VNone (VInt 0))) p'
    ∧ returns (Progress.increment_completed;; Progress.increment_started)
              (Progress.mk (Tracker.mk (VInt 3) (VInt 3) VNone (VInt 2))
                           (Tracker.mk (VInt 1) (VInt 1) VNone (VInt 0))) p'.
Proof.
  apply (increments_commute Tracker.Started Tracker.Completed).
  intros []; split; reflexivity.
Defined.

(** X7: when [reset_on_restart] is called on both Trackers of a Progress
    whose stages are in step, both calls return normally and the stages are
    in step afterwards. *)
Theorem restart_keeps_counters_in_step (p : Progress.t) :
  ordered p →
  ∃ t' c', returns Tracker.reset_on_restart (Progress.total p) t'
    ∧ returns Tracker.reset_on_restart (Progress.current p) c'
    ∧ ordered (Progress.mk t' c').
Proof.
  intros Hp. do 2 eexists.
  split; [apply reset_on_restart_eq |]. split; [apply reset_on_restart_eq |].
  destruct p as [[r s pr c] [r' s' pr' c']].
  pose proof (Hp Tracker.Ready) as Hr. pose proof (Hp Tracker.Started) as Hs.
  pose proof (Hp Tracker.Processed) as Hpr.
  pose proof (Hp Tracker.Completed) as Hc.
  cbn in Hr, Hs, Hpr, Hc.
  destruct r, r'; try contradiction; destruct s, s'; try contradiction;
    destruct pr, pr'; try contradiction; destruct c, c'; try contradiction;
    intros []; cbn in *; first [lia | exact I].
Qed.

Lemma restart_keeps_counters_in_step_witness :
  ∃ t' c',
    returns Tracker.reset_on_restart
            (Tracker.mk (VInt 9) (VInt 9) (VInt 8) (VInt 8)) t'
    ∧ returns Tracker.reset_on_restart
              (Tracker.mk (VInt 4) (VInt 4) (VInt 3) (VInt 3)) c'
    ∧ ordered (Progress.mk t' c').
Proof.
  apply (restart_keeps_counters_in_step
           (Progress.mk (Tracker.mk (VInt 9) (VInt 9) (VInt 8) (VInt 8))
                        (Tracker.mk (VInt 4) (VInt 4) (VInt 3) (VInt 3)))).
  intros []; cbn; lia.
Defined.

(** ** Restoring into a live object *)

Lemma fit_loop_setstate_raises
    (state : value) (self s' : FitLoopProgress.t) (e : exn) :
  FitLoopProgress.__setstate__ state self = (s', inl e) →
  malformed_restore e.
Proof.
  unfold FitLoopProgress.__setstate__. py_unfold. intros H. trace_raise H.
Qed.

(** X8: restoring the state dict of [x] into any object of the same class,
    whatever it holds and whatever its partition, returns normally and
    makes the object equal to [x]. *)
Theorem restore_overwrites_receiver :
  (∀ x self : Tracker.t, returns (setstate (state_dict x)) self x)
  ∧ (∀ x self : Progress.t, returns (setstate (state_dict x)) self x)
  ∧ (∀ x self : EpochProgress.t, returns (setstate (state_dict x)) self x)
  ∧ (∀ x self : OptimizerProgress.t,
        returns (setstate (state_dict x)) self x)
  ∧ (∀ x self : OptimizationProgress.t,
        returns (setstate (state_dict x)) self x)
  ∧ (∀ x self : EpochLoopProgress.t,
        returns (setstate (state_dict x)) self x)
  ∧ (∀ x self : TrainingValLoopPorgress.t,
        returns (setstate (state_dict x)) self x)
  ∧ (∀ x self : TrainingEpochProgress.t,
        returns (setstate (state_dict x)) self x)
  ∧ (∀ x self : FitLoopProgress.t,
        returns (setstate (state_dict x)) self x).
Proof.
  unfold returns, state_dict, __getstate__.
  repeat split; intros x self.
  - apply tracker_setstate_asdict.
  - apply progress_setstate_asdict.
  - apply epoch_setstate_asdict.
  - apply optimizer_setstate_asdict.
  - apply optimization_setstate_asdict.
  - apply epoch_loop_setstate_asdict.
  - apply training_val_loop_setstate_asdict.
  - apply training_epoch_setstate_asdict.
  - apply fit_loop_setstate_asdict.
Qed.

Lemma asdict_injective (T : Type) `{StateDictMixin T} :
  (∀ x self : T, setstate (asdict x) self = (x, inr tt)) →
  ∀ x y : T, state_dict x = state_dict y → x = y.
Proof.
  unfold state_dict, __getstate__. intros Hrestore x y Heq.
  pose proof (Hrestore x cls) as Hx. rewrite Heq, Hrestore in Hx.
  congruence.
Qed.

(** X9: the state dict determines the object: two objects of a class with
    the same state dict are equal, for the Tracker and for every composite
    up to the root, so nothing that distinguishes two trees is lost by
    saving them. *)
Theorem state_dict_injective :
  (∀ x y : Tracker.t, state_dict x = state_dict y → x = y)
  ∧ (∀ x y : Progress.t, state_dict x = state_dict y → x = y)
  ∧ (∀ x y : EpochProgress.t, state_dict x = state_dict y → x = y)
  ∧ (∀ x y : OptimizationProgress.t, state_dict x = state_dict y → x = y)
  ∧ (∀ x y : TrainingValLoopPorgress.t, state_dict x = state_dict y → x = y)
  ∧ (∀ x y : TrainingEpochProgress.t, state_dict x = state_dict y → x = y)
  ∧ (∀ x y : FitLoopProgress.t, state_dict x = state_dict y → x = y).
Proof.
  repeat split.
  - apply (asdict_injective Tracker.t), tracker_setstate_asdict.
  - apply (asdict_injective Progress.t), progress_setstate_asdict.
  - apply (asdict_injective EpochProgress.t), epoch_setstate_asdict.
  - apply (asdict_injective OptimizationProgress.t),
      optimization_setstate_asdict.
  - apply (asdict_injective TrainingValLoopPorgress.t),
      training_val_loop_setstate_asdict.
  - apply (asdict_injective TrainingEpochProgress.t),
      training_epoch_setstate_asdict.
  - apply (asdict_injective FitLoopProgress.t), fit_loop_setstate_asdict.
Qed.

Lemma state_dict_injective_witness :
  Tracker.mk (VInt 1) VNone VNone (VInt 0)
  = Tracker.mk (VInt 1) VNone VNone (VInt 0).
Proof.
  exact (proj1 state_dict_injective
           (Tracker.mk (VInt 1) VNone VNone (VInt 0))
           (Tracker.mk (VInt 1) VNone VNone (VInt 0)) eq_refl).
Defined.

(** X10: a state that is not a dict ([None], a number, a flag) is refused
    by every class with a [TypeError], and the receiver is left as it
    was. *)
Theorem restore_from_non_dict_raises_TypeError (state : value) :
  is_dict state = false →
  (∀ self : Tracker.t, raises (setstate state) self TypeError self)
  ∧ (∀ self : Progress.t, raises (setstate state) self TypeError self)
  ∧ (∀ self : EpochProgress.t, raises (setstate state) self TypeError self)
  ∧ (∀ self : OptimizerProgress.t,
        raises (setstate state) self TypeError self)
  ∧ (∀ self : OptimizationProgress.t,
        raises (setstate state) self TypeError self)
  ∧ (∀ self : EpochLoopProgress.t,
        raises (setstate state) self TypeError self)
  ∧ (∀ self : TrainingValLoopPorgress.t,
        raises (setstate state) self TypeError self)
  ∧ (∀ self : TrainingEpochProgress.t,
        raises (setstate state) self TypeError self)
  ∧ (∀ self : FitLoopProgress.t,
        raises (setstate state) self TypeError self)
  ∧ from_state_dict (T:=FitLoopProgress.t) state = inl TypeError.
Proof.
  intros Hstate.
  assert (Hepoch : ∀ self : EpochProgress.t,
             EpochProgress.__setstate__ state self = (self, inl TypeError)).
  { intros [sup idx bat].
    destruct state; try discriminate Hstate; reflexivity. }
  assert (Htrain : ∀ self : TrainingEpochProgress.t,
             TrainingEpochProgress.__setstate__ state self
             = (self, inl TypeError)).
  { intros [sup opt v]. unfold TrainingEpochProgress.__setstate__.
    py_unfold. cbn [view update TrainingEpochProgress._super].
    rewrite Hepoch. reflexivity. }
  unfold raises, from_state_dict.
  cbn [setstate Tracker.mixin Progress.mixin EpochProgress.mixin
       OptimizerProgress.mixin OptimizationProgress.mixin
       EpochLoopProgress.mixin TrainingValLoopPorgress.mixin
       TrainingEpochProgress.mixin FitLoopProgress.mixin].
  repeat split; try exact Hepoch; try exact Htrain;
    destruct state; try discriminate Hstate; reflexivity.
Qed.

Lemma restore_from_non_dict_raises_TypeError_witness :
  raises (setstate VNone) (cls : FitLoopProgress.t) TypeError cls
  ∧ from_state_dict (T:=FitLoopProgress.t) (VInt 3) = inl TypeError.
Proof.
  split.
  - exact (proj1 (proj2 (proj2 (proj2 (proj2 (proj2 (proj2 (proj2 (proj2
             (restore_from_non_dict_raises_TypeError VNone eq_refl)))))))))
             cls).
  - exact (proj2 (proj2 (proj2 (proj2 (proj2 (proj2 (proj2 (proj2 (proj2
             (restore_from_non_dict_raises_TypeError (VInt 3) eq_refl)))))))))).
Defined.

(** X11: when the first key that a composite reads is missing from the
    dict, its restore raises the [KeyError] of that key before it has
    changed anything. *)
Theorem restore_first_key_missing (d : gmap string value) :
  (d !! "total" = None →
   (∀ self : Progress.t,
       raises (setstate (VDict d)) self (KeyError "total") self)
   ∧ (∀ self : EpochProgress.t,
         raises (setstate (VDict d)) self (KeyError "total") self)
   ∧ (∀ self : TrainingEpochProgress.t,
         raises (setstate (VDict d)) self (KeyError "total") self))
  ∧ (d !! "step" = None →
     ∀ self : OptimizerProgress.t,
       raises (setstate (VDict d)) self (KeyError "step") self)
  ∧ (d !! "optimizer" = None →
     ∀ self : OptimizationProgress.t,
       raises (setstate (VDict d)) self (KeyError "optimizer") self)
  ∧ (d !! "epoch" = None →
     (∀ self : EpochLoopProgress.t,
         raises (setstate (VDict d)) self (KeyError "epoch") self)
     ∧ (∀ self : TrainingValLoopPorgress.t,
           raises (setstate (VDict d)) self (KeyError "epoch") self)
     ∧ (∀ self : FitLoopProgress.t,
           raises (setstate (VDict d)) self (KeyError "epoch") self)).
Proof.
  unfold raises.
  cbn [setstate Progress.mixin EpochProgress.mixin OptimizerProgress.mixin
       OptimizationProgress.mixin EpochLoopProgress.mixin
       TrainingValLoopPorgress.mixin TrainingEpochProgress.mixin
       FitLoopProgress.mixin].
  split; [| split; [| split]].
  - intros H. split; [| split]; intros self.
    + unfold Progress.__setstate__. py_unfold. cbn [getitem]. rewrite H.
      reflexivity.
    + unfold EpochProgress.__setstate__, Progress.__setstate__. py_unfold.
      cbn [getitem]. rewrite H. destruct self; reflexivity.
    + unfold TrainingEpochProgress.__setstate__, EpochProgress.__setstate__,
        Progress.__setstate__. py_unfold.
      cbn [getitem]. rewrite H. destruct self as [[] ? ?]; reflexivity.
  - intros H self. unfold OptimizerProgress.__setstate__. py_unfold.
    cbn [getitem]. rewrite H. reflexivity.
  - intros H self. unfold OptimizationProgress.__setstate__. py_unfold.
    cbn [getitem]. rewrite H. reflexivity.
  - intros H. split; [| split]; intros self.
    + unfold EpochLoopProgress.__setstate__. py_unfold. cbn [getitem].
      rewrite H. reflexivity.
    + unfold TrainingValLoopPorgress.__setstate__. py_unfold. cbn [getitem].
      rewrite H. reflexivity.
    + unfold FitLoopProgress.__setstate__. py_unfold. cbn [getitem].
      rewrite H. reflexivity.
Qed.

Lemma restore_first_key_missing_witness :
  raises (setstate (VDict {[ "current" := VDict ∅ ]}))
         (cls : Progress.t) (KeyError "total") cls
  ∧ raises (setstate (VDict ∅))
           (cls : FitLoopProgress.t) (KeyError "epoch") cls.
Proof.
  split.
  - exact (proj1 (proj1 (restore_first_key_missing
                           {[ "current" := VDict ∅ ]}) eq_refl) cls).
  - exact (proj2 (proj2 (proj2 (proj2 (proj2
             (restore_first_key_missing ∅))) eq_refl)) cls).
Defined.

(** X12: a restore that fails half-way is not undone. A [Progress] whose
    dict has [total] but no [current] raises the [KeyError] of [current]
    with [total] already restored; an [EpochProgress] whose dict has
    [total] and [current] but no [batch] raises the [KeyError] of [batch]
    with both already restored. *)
Theorem restore_is_not_undone (d dt dc : gmap string value) :
  d !! "total" = Some (VDict dt) →
  (d !! "current" = None →
   ∀ p : Progress.t,
     raises (setstate (VDict d)) p (KeyError "current")
       (Progress.mk (Tracker.dict_update dt (Progress.total p))
                    (Progress.current p)))
  ∧ (d !! "current" = Some (VDict dc) →
     d !! "batch" = None →
     ∀ e : EpochProgress.t,
       raises (setstate (VDict d)) e (KeyError "batch")
         (EpochProgress.mk
            (Progress.mk
               (Tracker.dict_update dt (EpochProgress.total e))
               (Tracker.dict_update dc (EpochProgress.current e)))
            (EpochProgress.dataloader_idx e)
            (EpochProgress.batch e))).
Proof.
  intros Ht. unfold raises.
  cbn [setstate Progress.mixin EpochProgress.mixin].
  split.
  - intros Hc p. unfold Progress.__setstate__. py_unfold. cbn [getitem].
    rewrite Ht, Hc. reflexivity.
  - intros Hc Hb e.
    unfold EpochProgress.__setstate__, Progress.__setstate__. py_unfold.
    cbn [getitem]. rewrite Ht, Hc, Hb. reflexivity.
Qed.

Lemma restore_is_not_undone_witness :
  raises (setstate (VDict {[ "total" := VDict {[ "ready" := VInt 8 ]} ]}))
         (cls : Progress.t) (KeyError "current")
         (Progress.mk (Tracker.mk (VInt 8) (VInt 0) (VInt 0) (VInt 0))
                      (Tracker.mk (VInt 0) (VInt 0) (VInt 0) (VInt 0))).
Proof.
  exact (proj1 (restore_is_not_undone
                  {[ "total" := VDict {[ "ready" := VInt 8 ]} ]}
                  {[ "ready" := VInt 8 ]} ∅ eq_refl)
           eq_refl cls).
Defined.

(** X13: on states built from [None], booleans, integers and dicts,
    whatever a restore raises, on any class and any receiver, is never the
    [AttributeError] of the Trackers' guard: the guard is never what stops
    a restore. *)
Theorem restore_never_raises_AttributeError (state : value) (e : exn) :
  (∀ self s' : Tracker.t, raises (setstate state) self e s' →
                          ∀ key, e ≠ AttributeError key)
  ∧ (∀ self s' : Progress.t, raises (setstate state) self e s' →
                             ∀ key, e ≠ AttributeError key)
  ∧ (∀ self s' : EpochProgress.t, raises (setstate state) self e s' →
                                  ∀ key, e ≠ AttributeError key)
  ∧ (∀ self s' : OptimizerProgress.t, raises (setstate state) self e s' →
                                      ∀ key, e ≠ AttributeError key)
  ∧ (∀ self s' : OptimizationProgress.t, raises (setstate state) self e s' →
                                         ∀ key, e ≠ AttributeError key)
  ∧ (∀ self s' : EpochLoopProgress.t, raises (setstate state) self e s' →
                                      ∀ key, e ≠ AttributeError key)
  ∧ (∀ self s' : TrainingValLoopPorgress.t,
        raises (setstate state) self e s' → ∀ key, e ≠ AttributeError key)
  ∧ (∀ self s' : TrainingEpochProgress.t,
        raises (setstate state) self e s' → ∀ key, e ≠ AttributeError key)
  ∧ (∀ self s' : FitLoopProgress.t,
        raises (setstate state) self e s' → ∀ key, e ≠ AttributeError key).
Proof.
  assert (Hguard : malformed_restore e → ∀ key, e ≠ AttributeError key).
  { intros Hm key ->. exact Hm. }
  unfold raises. repeat split; intros self s' Hraise; apply Hguard.
  - eapply tracker_setstate_raises, Hraise.
  - eapply progress_setstate_raises, Hraise.
  - eapply epoch_setstate_raises, Hraise.
  - eapply optimizer_setstate_raises, Hraise.
  - eapply optimization_setstate_raises, Hraise.
  - eapply epoch_loop_setstate_raises, Hraise.
  - eapply training_val_loop_setstate_raises, Hraise.
  - eapply training_epoch_setstate_raises, Hraise.
  - eapply fit_loop_setstate_raises, Hraise.
Qed.

Lemma restore_never_raises_AttributeError_witness :
  raises (setstate (VDict {[ "step" := VDict {[ "total" := VDict ∅;
                                                "current" := VDict ∅ ]} ]}))
         (cls : OptimizerProgress.t) (KeyError "zero_grad") cls
  ∧ ∀ key, KeyError "zero_grad" ≠ AttributeError key.
Proof.
  split; [reflexivity |].
  refine (proj1 (proj2 (proj2 (proj2
            (restore_never_raises_AttributeError
               (VDict {[ "step" := VDict {[ "total" := VDict ∅;
                                            "current" := VDict ∅ ]} ]})
               (KeyError "zero_grad")))))
            cls cls _).
  reflexivity.
Defined.

(** X14: [Tracker.from_state_dict] accepts every dict, and the partition
    of the Tracker it returns is read off the dict: a stage is disabled
    exactly when the dict maps it to [None]; a stage the dict does not
    mention is enabled and holds 0. *)
Theorem from_state_dict_derives_partition (d : gmap string value) :
  ∃ t, from_state_dict (VDict d) = inr t
    ∧ (∀ f, Tracker.get f t = default (VInt 0) (d !! Tracker.name f))
    ∧ (∀ f, Tracker.disabled f t
            = match d !! Tracker.name f with
              | Some v => is_None v
              | None => false
              end).
Proof.
  eexists. split; [reflexivity |].
  split; intros []; unfold Tracker.disabled; cbn;
    match goal with
    | |- context [d !! ?k] => destruct (d !! k)
    end; reflexivity.
Qed.

(** ** The tree under the calls of a loop *)

Lemma progresses_node (n : node) (x : FitLoopProgress.t) :
  progresses x !! node_index n = Some (view (node_attr n) x).
Proof. deep x; destruct n; reflexivity. Qed.

Lemma progresses_update (n : node) (p : Progress.t) (x : FitLoopProgress.t) :
  progresses (update (node_attr n) p x) = <[node_index n := p]> (progresses x).
Proof. deep x; destruct n; reflexivity. Qed.

Lemma ordered_current_zeroed (p : Progress.t) : ordered p → ordered (current_zeroed p).
Proof.
  intros H f. specialize (H f). unfold current_zeroed.
  cbn [Progress.total Progress.current]. rewrite get_zeroed.
  destruct (Tracker.get f (Progress.total p)), (Tracker.get f (Progress.current p));
    cbn in *; try tauto; lia.
Qed.

Lemma inv_increment (n : node) (f : Tracker.field) (x : FitLoopProgress.t) :
  Forall ordered (progresses x) →
  ∃ x', returns (perform (Increment n f)) x x' ∧ Forall ordered (progresses x').
Proof.
  intros H.
  assert (Hn : ordered (view (node_attr n) x)).
  { eapply Forall_lookup_1; [exact H | apply progresses_node]. }
  exists (update (node_attr n) (advanced f (view (node_attr n) x)) x). split.
  - unfold returns, perform, on. rewrite increment_typed by (apply ordered_typed, Hn). reflexivity.
  - rewrite progresses_update. apply Forall_insert; [exact H | apply ordered_advanced, Hn].
Qed.

Lemma inv_reset_on_epoch (x : FitLoopProgress.t) :
  Forall ordered (progresses x) →
  ∃ x', returns FitLoopProgress.reset_on_epoch x x' ∧ Forall ordered (progresses x').
Proof.
  intros H. eexists. split; [apply fit_reset_on_epoch_eq|].
  deep x. split_inv; auto using ordered_current_zeroed.
Qed.

Lemma on_then {S T U A} (a : attr S T) (b : attr T U) (m : M U A) (x : S) :
  on (a ∘ₐ b) m x = on a (on b m) x.
Proof.
  unfold on, then_. cbn [view update].
  destruct (m (view b (view a x))); reflexivity.
Qed.

Lemma fit_epoch_increment_is_node (x : FitLoopProgress.t) :
  on FitLoopProgress._epoch TrainingEpochProgress.increment_completed x
  = perform (Increment NEpoch Tracker.Completed) x.
Proof.
  unfold perform, node_attr. rewrite !on_then. reflexivity.
Qed.

Lemma inv_increment_epoch_completed (x : FitLoopProgress.t) :
  Forall ordered (progresses x) →
  ∃ x', returns FitLoopProgress.increment_epoch_completed x x' ∧ Forall ordered (progresses x').
Proof.
  intros H.
  destruct (inv_increment NEpoch Tracker.Completed x H) as (x1 & Hret & H1).
  destruct (inv_reset_on_epoch x1 H1) as (x' & Hret' & H').
  exists x'. split; [| exact H'].
  unfold returns, FitLoopProgress.increment_epoch_completed, mbind, M_bind in *.
  rewrite fit_epoch_increment_is_node, Hret. exact Hret'.
Qed.

Lemma inv_val_reset_on_epoch (x : FitLoopProgress.t) :
  Forall ordered (progresses x) →
  ∃ x', returns (perform ValResetOnEpoch) x x' ∧ Forall ordered (progresses x').
Proof.
  intros H. eexists. split.
  - unfold returns, perform, TrainingValLoopPorgress.reset_on_epoch.
    rewrite <- on_then. unfold on at 1. rewrite epoch_loop_reset_on_epoch_eq. reflexivity.
  - deep x. split_inv; auto using ordered_current_zeroed.
Qed.

Lemma val_increment_epoch_completed_is_node (x : FitLoopProgress.t) :
  perform ValIncrementEpochCompleted x
  = (perform (Increment NValEpoch Tracker.Completed);; perform ValResetOnEpoch) x.
Proof.
  unfold perform, node_attr, TrainingValLoopPorgress.increment_epoch_completed,
    TrainingValLoopPorgress.reset_on_epoch, TrainingValLoopPorgress._epoch,
    EpochLoopProgress.increment_epoch_completed, EpochProgress.increment_completed.
  change Progress.increment_completed with (Progress.increment Tracker.Completed).
  deep x. unfold on, then_, mbind, M_bind.
  cbn [view update FitLoopProgress._epoch TrainingEpochProgress._val
       TrainingValLoopPorgress._super EpochLoopProgress._epoch EpochProgress._super
       FitLoopProgress.epoch TrainingEpochProgress.val TrainingEpochProgress.super
       TrainingEpochProgress.optim
       TrainingValLoopPorgress.super TrainingValLoopPorgress.should_check_val
       EpochLoopProgress.epoch EpochProgress.super EpochProgress.batch
       EpochProgress.dataloader_idx].
  destruct (Progress.increment Tracker.Completed _) as [p' [err | []]];
    reflexivity.
Qed.

Lemma inv_val_increment_epoch_completed (x : FitLoopProgress.t) :
  Forall ordered (progresses x) →
  ∃ x', returns (perform ValIncrementEpochCompleted) x x' ∧ Forall ordered (progresses x').
Proof.
  intros H.
  destruct (inv_increment NValEpoch Tracker.Completed x H) as (x1 & Hret & H1).
  destruct (inv_val_reset_on_epoch x1 H1) as (x' & Hret' & H').
  exists x'. split; [| exact H'].
  unfold returns in *. rewrite val_increment_epoch_completed_is_node.
  unfold mbind, M_bind. rewrite Hret. exact Hret'.
Qed.

Lemma inv_perform (c : call) (x : FitLoopProgress.t) :
  Forall ordered (progresses x) →
  ∃ x', returns (perform c) x x' ∧ Forall ordered (progresses x').
Proof.
  destruct c.
  - apply inv_increment.
  - apply inv_increment_epoch_completed.
  - apply inv_reset_on_epoch.
  - apply inv_val_increment_epoch_completed.
  - apply inv_val_reset_on_epoch.
Qed.

Lemma inv_perform_all (cs : list call) (x : FitLoopProgress.t) :
  Forall ordered (progresses x) →
  ∃ x', returns (perform_all cs) x x' ∧ Forall ordered (progresses x').
Proof.
  revert x. induction cs as [| c cs IH]; intros x H.
  - exists x. split; [reflexivity | exact H].
  - destruct (inv_perform c x H) as (x1 & Hret & H1).
    destruct (IH x1 H1) as (x' & Hret' & H').
    exists x'. split; [| exact H'].
    unfold returns in *. cbn [perform_all]. unfold mbind, M_bind.
    rewrite Hret. exact Hret'.
Qed.

Lemma inv_fresh : Forall ordered (progresses (cls : FitLoopProgress.t)).
Proof.
  cbn. repeat first [apply Forall_nil_2 | apply Forall_cons_2];
    intros []; vm_compute; first [exact I | split; discriminate].
Qed.

Lemma node_view_update (n : node) (p : Progress.t) (x : FitLoopProgress.t) :
  view (node_attr n) (update (node_attr n) p x) = p.
Proof. deep x; destruct n; reflexivity. Qed.

Lemma node_view_update_other (n m : node) (p : Progress.t) (x : FitLoopProgress.t) :
  n ≠ m → view (node_attr m) (update (node_attr n) p x) = view (node_attr m) x.
Proof. deep x; destruct n, m; intros H; try reflexivity; contradiction. Qed.

Lemma node_update_update (n : node) (p q : Progress.t) (x : FitLoopProgress.t) :
  update (node_attr n) q (update (node_attr n) p x) = update (node_attr n) q x.
Proof. deep x; destruct n; reflexivity. Qed.

Lemma node_update_view (n : node) (x : FitLoopProgress.t) :
  update (node_attr n) (view (node_attr n) x) x = x.
Proof. deep x; destruct n; reflexivity. Qed.

Lemma total_advanced (f g : Tracker.field) (p : Progress.t) :
  ordered p →
  Tracker.get g (Progress.total (advanced f p))
  = if bool_decide (g = f) then counted 1 (Tracker.get g (Progress.total p))
    else Tracker.get g (Progress.total p).
Proof.
  intros H. case_bool_decide as Hfg.
  - subst g. pose proof (H f) as Hf. unfold advanced.
    destruct (Tracker.get f (Progress.total p)) eqn:Ht,
      (Tracker.get f (Progress.current p)) eqn:Hc; cbn in Hf; try contradiction;
      cbn [counted]; try (rewrite Ht; reflexivity).
    cbn [Progress.total]. rewrite get_set_same. reflexivity.
  - apply advanced_get_other. congruence.
Qed.

Lemma fit_reset_on_epoch_totals (n : node) (x : FitLoopProgress.t) :
  Progress.total (view (node_attr n) (fst (FitLoopProgress.reset_on_epoch x)))
  = Progress.total (view (node_attr n) x).
Proof. rewrite fit_reset_on_epoch_eq. deep x; destruct n; reflexivity. Qed.

Lemma val_reset_on_epoch_totals (n : node) (x : FitLoopProgress.t) :
  Progress.total (view (node_attr n) (fst (perform ValResetOnEpoch x)))
  = Progress.total (view (node_attr n) x).
Proof.
  unfold perform, TrainingValLoopPorgress.reset_on_epoch.
  rewrite <- on_then. unfold on at 1. rewrite epoch_loop_reset_on_epoch_eq.
  deep x; destruct n; reflexivity.
Qed.

(** The effect of one call on the totals. *)
Lemma perform_effect (c : call) (x : FitLoopProgress.t) :
  Forall ordered (progresses x) →
  ∃ x', returns (perform c) x x'
    ∧ Forall ordered (progresses x')
    ∧ ∀ n f, Tracker.get f (Progress.total (view (node_attr n) x'))
             = if increments n f c
               then counted 1 (Tracker.get f (Progress.total (view (node_attr n) x)))
               else Tracker.get f (Progress.total (view (node_attr n) x)).
Proof.
  intros H.
  assert (Hinc : ∀ n' f',
    ∃ x', returns (perform (Increment n' f')) x x'
      ∧ Forall ordered (progresses x')
      ∧ ∀ n f, Tracker.get f (Progress.total (view (node_attr n) x'))
               = if bool_decide (n = n' ∧ f = f')
                 then counted 1 (Tracker.get f (Progress.total (view (node_attr n) x)))
                 else Tracker.get f (Progress.total (view (node_attr n) x))).
  { intros n' f'.
    assert (Hn : ordered (view (node_attr n') x)).
    { eapply Forall_lookup_1; [exact H | apply progresses_node]. }
    exists (update (node_attr n') (advanced f' (view (node_attr n') x)) x).
    split; [| split].
    - unfold returns, perform, on.
      rewrite increment_typed by (apply ordered_typed, Hn). reflexivity.
    - rewrite progresses_update.
      apply Forall_insert; [exact H | apply ordered_advanced, Hn].
    - intros n f. destruct (decide (n = n')) as [-> | Hne].
      + rewrite node_view_update, (total_advanced f' f _ Hn).
        destruct (decide (f = f')) as [-> | Hf].
        * rewrite !bool_decide_eq_true_2 by auto. reflexivity.
        * rewrite !bool_decide_eq_false_2 by (try intros [_ ?]; congruence).
          reflexivity.
      + rewrite node_view_update_other by congruence.
        rewrite bool_decide_eq_false_2 by (intros [? _]; congruence).
        reflexivity. }
  destruct c as [n' f' | | | |].
  - apply Hinc.
  - destruct (Hinc NEpoch Tracker.Completed) as (x1 & Hret & H1 & Ht).
    destruct (inv_reset_on_epoch x1 H1) as (x' & Hret' & H').
    exists x'. split; [| split; [exact H' |]].
    + unfold returns, perform, FitLoopProgress.increment_epoch_completed,
        mbind, M_bind in *.
      rewrite fit_epoch_increment_is_node. unfold perform. rewrite Hret.
      exact Hret'.
    + intros n f. pose proof (fit_reset_on_epoch_totals n x1) as Hr.
      red in Hret'. rewrite Hret' in Hr. cbn [fst] in Hr. rewrite Hr.
      apply Ht.
  - destruct (inv_reset_on_epoch x H) as (x' & Hret' & H').
    exists x'. split; [exact Hret' | split; [exact H' |]].
    intros n f. pose proof (fit_reset_on_epoch_totals n x) as Hr.
    red in Hret'. rewrite Hret' in Hr. cbn [fst] in Hr. rewrite Hr.
    reflexivity.
  - destruct (Hinc NValEpoch Tracker.Completed) as (x1 & Hret & H1 & Ht).
    destruct (inv_val_reset_on_epoch x1 H1) as (x' & Hret' & H').
    exists x'. split; [| split; [exact H' |]].
    + unfold returns in *. rewrite val_increment_epoch_completed_is_node.
      unfold mbind, M_bind. rewrite Hret. exact Hret'.
    + intros n f. pose proof (val_reset_on_epoch_totals n x1) as Hr.
      red in Hret'. rewrite Hret' in Hr. cbn [fst] in Hr. rewrite Hr.
      apply Ht.
  - destruct (inv_val_reset_on_epoch x H) as (x' & Hret' & H').
    exists x'. split; [exact Hret' | split; [exact H' |]].
    intros n f. pose proof (val_reset_on_epoch_totals n x) as Hr.
    red in Hret'. rewrite Hret' in Hr. cbn [fst] in Hr. rewrite Hr.
    reflexivity.
Qed.

Lemma counted_counted (j k : nat) (v : value) :
  counted k (counted j v) = counted (j + k) v.
Proof. destruct v; cbn; try reflexivity. f_equal. lia. Qed.

Lemma perform_all_effect (cs : list call) :
  ∀ x : FitLoopProgress.t,
    Forall ordered (progresses x) →
    ∃ x', returns (perform_all cs) x x'
      ∧ Forall ordered (progresses x')
      ∧ ∀ n f, Tracker.get f (Progress.total (view (node_attr n) x'))
               = counted (tally n f cs)
                   (Tracker.get f (Progress.total (view (node_attr n) x))).
Proof.
  induction cs as [| c cs IH]; intros x H.
  - exists x. split; [reflexivity |]. split; [exact H |].
    intros n f. cbn [tally].
    destruct (Tracker.get f _); cbn; try reflexivity. f_equal. lia.
  - destruct (perform_effect c x H) as (x1 & Hret & H1 & Ht).
    destruct (IH x1 H1) as (x' & Hret' & H' & Ht').
    exists x'. split; [| split; [exact H' |]].
    + unfold returns in *. cbn [perform_all]. unfold mbind, M_bind.
      rewrite Hret. exact Hret'.
    + intros n f. rewrite Ht', Ht. cbn [tally].
      destruct (increments n f c).
      * rewrite counted_counted. reflexivity.
      * reflexivity.
Qed.

Lemma advanced_keeps_equal (f : Tracker.field) (p : Progress.t) :
  Progress.current p = Progress.total p →
  Progress.current (advanced f p) = Progress.total (advanced f p).
Proof.
  destruct p as [t c]. cbn [Progress.total Progress.current].
  intros ->. unfold advanced. cbn [Progress.total Progress.current].
  destruct (Tracker.get f t); reflexivity.
Qed.

Lemma perform_keeps_epoch_current (c : call) (x x' : FitLoopProgress.t) :
  Forall ordered (progresses x) →
  returns (perform c) x x' →
  Progress.current (view (node_attr NEpoch) x)
  = Progress.total (view (node_attr NEpoch) x) →
  Progress.current (view (node_attr NEpoch) x')
  = Progress.total (view (node_attr NEpoch) x').
Proof.
  intros H Hret Heq.
  assert (Hinc : ∀ n' f' x1,
    returns (perform (Increment n' f')) x x1 →
    Progress.current (view (node_attr NEpoch) x1)
    = Progress.total (view (node_attr NEpoch) x1)).
  { intros n' f' x1 Hx1.
    assert (Hn : ordered (view (node_attr n') x)).
    { eapply Forall_lookup_1; [exact H | apply progresses_node]. }
    unfold returns, perform, on in Hx1.
    rewrite increment_typed in Hx1 by (apply ordered_typed, Hn).
    injection Hx1 as <-.
    destruct (decide (n' = NEpoch)) as [-> | Hne].
    - rewrite node_view_update. apply advanced_keeps_equal, Heq.
    - rewrite node_view_update_other by exact Hne. exact Heq. }
  assert (Hfit : ∀ y, view (node_attr NEpoch) (fst (FitLoopProgress.reset_on_epoch y))
                      = view (node_attr NEpoch) y).
  { intros y. rewrite fit_reset_on_epoch_eq. deep y. reflexivity. }
  assert (Hval : ∀ y, view (node_attr NEpoch) (fst (perform ValResetOnEpoch y))
                      = view (node_attr NEpoch) y).
  { intros y. unfold perform, TrainingValLoopPorgress.reset_on_epoch.
    rewrite <- on_then. unfold on at 1. rewrite epoch_loop_reset_on_epoch_eq.
    deep y. reflexivity. }
  unfold returns in Hret. destruct c as [n' f' | | | |].
  - exact (Hinc n' f' x' Hret).
  - unfold perform, FitLoopProgress.increment_epoch_completed, mbind, M_bind in Hret.
    rewrite fit_epoch_increment_is_node in Hret.
    destruct (perform (Increment NEpoch Tracker.Completed) x) as [x1 [e | []]] eqn:E1;
      [discriminate |].
    specialize (Hfit x1). rewrite Hret in Hfit. cbn [fst] in Hfit. rewrite Hfit.
    exact (Hinc _ _ x1 E1).
  - specialize (Hfit x). unfold perform in Hret. rewrite Hret in Hfit.
    cbn [fst] in Hfit. rewrite Hfit. exact Heq.
  - rewrite val_increment_epoch_completed_is_node in Hret.
    unfold mbind, M_bind in Hret.
    destruct (perform (Increment NValEpoch Tracker.Completed) x) as [x1 [e | []]] eqn:E1;
      [discriminate |].
    specialize (Hval x1). rewrite Hret in Hval. cbn [fst] in Hval. rewrite Hval.
    exact (Hinc _ _ x1 E1).
  - specialize (Hval x). rewrite Hret in Hval. cbn [fst] in Hval. rewrite Hval.
    exact Heq.
Qed.

(** X17: [FitLoopProgress] never resets [epoch.current]: on a fresh tree,
    after any sequence of the loop's calls (increments at any Progress,
    [increment_epoch_completed] and [reset_on_epoch] of the root and of the
    validation loop), the sequence has returned normally and
    [epoch.current] equals [epoch.total]. *)
Theorem fit_epoch_current_equals_total (cs : list call) :
  ∃ x', returns (perform_all cs) cls x'
    ∧ TrainingEpochProgress.current (FitLoopProgress.epoch x')
      = TrainingEpochProgress.total (FitLoopProgress.epoch x').
Proof.
  assert (Hgen : ∀ x : FitLoopProgress.t,
    Forall ordered (progresses x) →
    Progress.current (view (node_attr NEpoch) x)
    = Progress.total (view (node_attr NEpoch) x) →
    ∃ x', returns (perform_all cs) x x'
      ∧ Progress.current (view (node_attr NEpoch) x')
        = Progress.total (view (node_attr NEpoch) x')).
  { induction cs as [| c cs IH]; intros x H Heq.
    - exists x. split; [reflexivity | exact Heq].
    - destruct (inv_perform c x H) as (x1 & Hret & H1).
      destruct (IH x1 H1 (perform_keeps_epoch_current c x x1 H Hret Heq))
        as (x' & Hret' & Heq').
      exists x'. split; [| exact Heq'].
      unfold returns in *. cbn [perform_all]. unfold mbind, M_bind.
      rewrite Hret. exact Hret'. }
  destruct (Hgen cls inv_fresh eq_refl) as (x' & Hret & Heq).
  exists x'. split; [exact Hret |]. exact Heq.
Qed.

Lemma current_zeroed_idem (p : Progress.t) :
  current_zeroed (current_zeroed p) = current_zeroed p.
Proof.
  unfold current_zeroed. cbn [Progress.total Progress.current].
  rewrite zeroed_idem. reflexivity.
Qed.

(** X18: [reset_on_epoch] is idempotent in every class that has one: a
    second call right after the first returns normally and changes
    nothing. *)
Theorem reset_on_epoch_idempotent :
  (∀ e : EpochProgress.t,
      ∃ e', returns EpochProgress.reset_on_epoch e e'
        ∧ returns EpochProgress.reset_on_epoch e' e')
  ∧ (∀ o : OptimizerProgress.t,
        ∃ o', returns OptimizerProgress.reset_on_epoch o o'
          ∧ returns OptimizerProgress.reset_on_epoch o' o')
  ∧ (∀ o : OptimizationProgress.t,
        ∃ o', returns OptimizationProgress.reset_on_epoch o o'
          ∧ returns OptimizationProgress.reset_on_epoch o' o')
  ∧ (∀ x : EpochLoopProgress.t,
        ∃ x', returns EpochLoopProgress.reset_on_epoch x x'
          ∧ returns EpochLoopProgress.reset_on_epoch x' x')
  ∧ (∀ x : FitLoopProgress.t,
        ∃ x', returns FitLoopProgress.reset_on_epoch x x'
          ∧ returns FitLoopProgress.reset_on_epoch x' x').
Proof.
  unfold returns. repeat split; intros x; eexists.
  - split; [apply epoch_reset_on_epoch_eq |].
    rewrite epoch_reset_on_epoch_eq.
    cbn [EpochProgress.super EpochProgress.dataloader_idx EpochProgress.batch].
    rewrite current_zeroed_idem. reflexivity.
  - split; [apply optimizer_reset_on_epoch_eq |].
    rewrite optimizer_reset_on_epoch_eq.
    cbn [OptimizerProgress.step OptimizerProgress.zero_grad].
    rewrite !current_zeroed_idem. reflexivity.
  - split; [apply optimization_reset_on_epoch_eq |].
    rewrite optimization_reset_on_epoch_eq.
    cbn [OptimizationProgress.optimizer OptimizationProgress.scheduler
         OptimizationProgress.optimizer_idx
         OptimizerProgress.step OptimizerProgress.zero_grad].
    rewrite !current_zeroed_idem. reflexivity.
  - split; [apply epoch_loop_reset_on_epoch_eq |].
    rewrite epoch_loop_reset_on_epoch_eq.
    cbn [EpochLoopProgress.epoch EpochProgress.super
         EpochProgress.dataloader_idx EpochProgress.batch].
    rewrite !current_zeroed_idem. reflexivity.
  - split; [apply fit_reset_on_epoch_eq |].
    rewrite fit_reset_on_epoch_eq. deep x.
    cbn -[current_zeroed]. rewrite !current_zeroed_idem. reflexivity.
Qed.

(** X19: [reset_on_epoch] returns normally and leaves the derived totals
    as they were: [optimizer_steps] and [scheduler_steps] of an
    [OptimizationProgress], [total_epoch_completed] of the three loops (and
    [should_check_val] of the validation loop),
    [total_optimizer_step_completed] of the root. *)
Theorem reset_on_epoch_keeps_derived_totals :
  (∀ o : OptimizationProgress.t,
      ∃ o', returns OptimizationProgress.reset_on_epoch o o'
        ∧ OptimizationProgress.optimizer_steps o'
          = OptimizationProgress.optimizer_steps o
        ∧ OptimizationProgress.scheduler_steps o'
          = OptimizationProgress.scheduler_steps o)
  ∧ (∀ x : EpochLoopProgress.t,
        ∃ x', returns EpochLoopProgress.reset_on_epoch x x'
          ∧ EpochLoopProgress.total_epoch_completed x'
            = EpochLoopProgress.total_epoch_completed x)
  ∧ (∀ x : TrainingValLoopPorgress.t,
        ∃ x', returns TrainingValLoopPorgress.reset_on_epoch x x'
          ∧ TrainingValLoopPorgress.total_epoch_completed x'
            = TrainingValLoopPorgress.total_epoch_completed x
          ∧ TrainingValLoopPorgress.should_check_val x'
            = TrainingValLoopPorgress.should_check_val x)
  ∧ (∀ x : FitLoopProgress.t,
        ∃ x', returns FitLoopProgress.reset_on_epoch x x'
          ∧ FitLoopProgress.total_epoch_completed x'
            = FitLoopProgress.total_epoch_completed x
          ∧ FitLoopProgress.total_optimizer_step_completed x'
            = FitLoopProgress.total_optimizer_step_completed x).
Proof.
  unfold returns. repeat split; intros x; eexists.
  - split; [apply optimization_reset_on_epoch_eq |]. split; reflexivity.
  - split; [apply epoch_loop_reset_on_epoch_eq |]. reflexivity.
  - split.
    + unfold TrainingValLoopPorgress.reset_on_epoch, on.
      rewrite epoch_loop_reset_on_epoch_eq. reflexivity.
    + split; reflexivity.
  - split; [apply fit_reset_on_epoch_eq |]. split; reflexivity.
Qed.

Lemma zeroed_set_completed (t : Tracker.t) (b c : Z) :
  Tracker.completed t = VInt b →
  zeroed (Tracker.set Tracker.Completed (VInt c) t) = zeroed t.
Proof. destruct t as [r s p k]. cbn. intros ->. reflexivity. Qed.

Lemma epoch_loop_increment_epoch_completed_explicit
    (x : EpochLoopProgress.t) (a b : Z) :
  Tracker.completed (EpochProgress.total (EpochLoopProgress.epoch x)) = VInt a →
  Tracker.completed (EpochProgress.current (EpochLoopProgress.epoch x)) = VInt b →
  EpochLoopProgress.increment_epoch_completed x
  = (EpochLoopProgress.mk
       (EpochProgress.mk
          (Progress.mk
             (Tracker.set Tracker.Completed (VInt (a + 1))
                (EpochProgress.total (EpochLoopProgress.epoch x)))
             (zeroed (EpochProgress.current (EpochLoopProgress.epoch x))))
          (EpochProgress.dataloader_idx (EpochLoopProgress.epoch x))
          (current_zeroed (EpochProgress.batch (EpochLoopProgress.epoch x)))),
     inr tt).
Proof.
  intros Ha Hb.
  unfold EpochLoopProgress.increment_epoch_completed, mbind, M_bind.
  unfold on at 1. cbn [view update EpochLoopProgress._epoch].
  rewrite (epoch_increment_completed_eq _ a b Ha Hb).
  rewrite epoch_loop_reset_on_epoch_eq.
  unfold current_zeroed at 1.
  cbn [EpochLoopProgress.epoch EpochProgress.super EpochProgress.dataloader_idx
       EpochProgress.batch Progress.total Progress.current].
  rewrite (zeroed_set_completed _ b (b + 1) Hb). reflexivity.
Qed.

(** X20: in a plain [EpochLoopProgress], whose [reset_on_epoch] also
    resets [epoch.current], the increment that [increment_epoch_completed]
    makes on [epoch.current.completed] is wiped by the same call: after one
    or more calls, [total_epoch_completed] has advanced by their number
    while [epoch.current.completed] is 0 and every other enabled field of
    [epoch.current] is 0 too. *)
Theorem epoch_loop_boundary_wipes_current
    (n : nat) (x : EpochLoopProgress.t) (a b : Z) :
  Tracker.completed (EpochProgress.total (EpochLoopProgress.epoch x)) = VInt a →
  Tracker.completed (EpochProgress.current (EpochLoopProgress.epoch x)) = VInt b →
  ∃ x', returns (repeat_call (S n) EpochLoopProgress.increment_epoch_completed) x x'
    ∧ EpochLoopProgress.total_epoch_completed x' = VInt (a + Z.of_nat (S n))
    ∧ Tracker.completed (EpochProgress.current (EpochLoopProgress.epoch x'))
      = VInt 0
    ∧ ∀ f, Tracker.get f (EpochProgress.current (EpochLoopProgress.epoch x'))
           = zero_enabled
               (Tracker.get f (EpochProgress.current (EpochLoopProgress.epoch x))).
Proof.
  revert x a b. induction n as [| n IH]; intros x a b Ha Hb.
  - eexists. split.
    + unfold returns. cbn [repeat_call]. unfold mbind, M_bind.
      rewrite (epoch_loop_increment_epoch_completed_explicit x a b Ha Hb).
      reflexivity.
    + split; [| split].
      * reflexivity.
      * unfold EpochProgress.current in *. cbn. rewrite Hb. reflexivity.
      * intros f. unfold EpochProgress.current. cbn [EpochLoopProgress.epoch EpochProgress.super Progress.current]. apply get_zeroed.
  - pose proof (epoch_loop_increment_epoch_completed_explicit x a b Ha Hb) as H1.
    match type of H1 with _ = (?y, _) => set (x1 := y) in * end.
    destruct (IH x1 (a + 1)%Z 0%Z) as (x' & Hret & Ht & Hc & Hf).
    + reflexivity.
    + unfold x1, EpochProgress.current in *. cbn. rewrite Hb. reflexivity.
    + exists x'. split; [| split; [| split]].
      * unfold returns in *. rewrite (repeat_call_succ (S n) _ x x1 H1). exact Hret.
      * rewrite Ht. f_equal. lia.
      * exact Hc.
      * intros f. rewrite Hf. unfold x1, EpochProgress.current.
        cbn [EpochLoopProgress.epoch EpochProgress.super Progress.current].
        rewrite get_zeroed. apply zero_enabled_idem.
Qed.

(** X15: the counters of a fresh [FitLoopProgress] are in step in every
    Progress of the tree, and from any tree whose counters are in step,
    every sequence of the loop's calls returns normally, none of them
    raising, and leaves the counters in step: in every stage of every
    Progress, both counters are disabled or [0 ≤ current ≤ total]. *)
Theorem loop_calls_keep_counters_in_step :
  Forall ordered (progresses (cls : FitLoopProgress.t))
  ∧ ∀ (cs : list call) (x : FitLoopProgress.t),
      Forall ordered (progresses x) →
      ∃ x', returns (perform_all cs) x x' ∧ Forall ordered (progresses x').
Proof.
  split; [exact inv_fresh |].
  intros cs x H. destruct (perform_all_effect cs x H) as (x' & Hret & H' & _).
  exists x'. split; assumption.
Qed.

Lemma loop_calls_keep_counters_in_step_witness :
  ∃ x', returns (perform_all [Increment NBatch Tracker.Ready;
                              Increment NStep Tracker.Completed;
                              IncrementEpochCompleted;
                              ValIncrementEpochCompleted])
                cls x'
    ∧ Forall ordered (progresses x').
Proof.
  destruct loop_calls_keep_counters_in_step as [Hfresh Hcalls].
  exact (Hcalls _ cls Hfresh).
Defined.

(** X16: the totals count the increments. After any sequence of the loop's
    calls on a fresh [FitLoopProgress], each enabled counter of each
    [total] Tracker holds the number of calls of the sequence that went
    through its increment, and a disabled one is still [None]: no reset of
    the tree touches a total. In particular [total_epoch_completed] is the
    number of completed-epoch increments and
    [total_optimizer_step_completed] the number of completed optimizer
    steps. *)
Theorem totals_count_increments (cs : list call) :
  ∃ x', returns (perform_all cs) cls x'
    ∧ (∀ n f, Tracker.get f (Progress.total (view (node_attr n) x'))
              = counted (tally n f cs)
                  (Tracker.get f (Progress.total (view (node_attr n) cls))))
    ∧ FitLoopProgress.total_epoch_completed x'
      = VInt (Z.of_nat (tally NEpoch Tracker.Completed cs))
    ∧ FitLoopProgress.total_optimizer_step_completed x'
      = VInt (Z.of_nat (tally NStep Tracker.Completed cs)).
Proof.
  destruct (perform_all_effect cs cls inv_fresh) as (x' & Hret & _ & Ht).
  exists x'. split; [exact Hret |]. split; [exact Ht |].
  split.
  - exact (Ht NEpoch Tracker.Completed).
  - exact (Ht NStep Tracker.Completed).
Qed.

Lemma epoch_loop_boundary_wipes_current_witness :
  ∃ x', returns (repeat_call 2 EpochLoopProgress.increment_epoch_completed)
                cls x'
    ∧ EpochLoopProgress.total_epoch_completed x' = VInt 2
    ∧ Tracker.completed (EpochProgress.current (EpochLoopProgress.epoch x'))
      = VInt 0.
Proof.
  destruct (epoch_loop_boundary_wipes_current 1
              (@cls _ EpochLoopProgress.mixin) 0 0 eq_refl eq_refl)
    as (x' & Hret & Htotal & Hcur & _).
  exists x'. repeat split; assumption.
Defined.
